(** * shift-replace: the SOCKS5 handshake and relay

    A shallow embedding of the Go packages [server] and [handlers]
    (server/server.go, server/constanst.go, handlers/handler.go,
    handlers/model.go, handlers/constants.go).

    - A [byte] is Stdlib's 256-constructor [Byte.byte]; ordered comparisons go
      through [Byte.to_N].
    - A [net.Conn] is a record [Conn]: the segments the peer will still
      deliver, what the peer still accepts, and a log of every call made on
      the connection.  Go passes the connection by reference; here it is
      threaded through a state monad [M].
    - A Go function returning [(T, error)] returns an [outcome T]:
      [Ok], [Err] (non-nil error), [Panic] (run-time panic) or [Running]
      (the call has not returned within the schedule looked at; only the
      tunnel can produce it). *)

From Stdlib Require Import ZArith NArith String Strings.Byte Ascii Lia Bool DecimalString List.
Import ListNotations.
Local Open Scope string_scope.
Local Open Scope list_scope.
Local Open Scope nat_scope.

Infix "+++" := String.append (at level 60, right associativity).

(** ** Errors *)

Inductive error : Type :=
| io_EOF                       (* io.EOF *)
| net_OpError (msg : string)   (* an I/O failure reported by package net; msg is its Error() text *)
| errors_New (msg : string)    (* errors.New(msg) *)
| io_ErrShortWrite             (* io.ErrShortWrite *)
| fmt_Errorf (msg : string).   (* fmt.Errorf(...), msg the formatted text *)

(** [err.Error()], and what [%v] prints for a possibly nil error. *)
Definition Error_text (e : error) : string :=
  match e with
  | io_EOF => "EOF"
  | net_OpError msg => msg
  | errors_New msg => msg
  | io_ErrShortWrite => "short write"
  | fmt_Errorf msg => msg
  end.

Definition verb_v (e : option error) : string :=
  match e with
  | Some e => Error_text e
  | None => "<nil>"
  end.

Inductive outcome (A : Type) : Type :=
| Ok (a : A)
| Err (e : error)
| Panic (msg : string)
| Running.

Arguments Ok {A} a.
Arguments Err {A} e.
Arguments Panic {A} msg.
Arguments Running {A}.

(** The error taxonomy of the specification.  The Go code has no error
    types: every failure is an [errors.New] with a fixed message or an error
    handed up from the transport.  [error_kind] sorts them the way the
    specification names them. *)
Inductive ErrorKind : Type :=
| NotSocks5Error | ProtocolError | TransportError | TunnelError.

Definition error_kind (e : error) : ErrorKind :=
  match e with
  | errors_New msg =>
      if String.eqb msg "non socks5h connection received" then NotSocks5Error
      else if String.eqb msg "invalid version or rsv" then ProtocolError
      else if String.eqb msg "request cmd type is invalid" then ProtocolError
      else if String.eqb msg "invalid atyp provided" then ProtocolError
      else TransportError
  | fmt_Errorf _ => TunnelError
  | _ => TransportError
  end.

(** ** Bytes *)

Definition byte_ltb (a b : byte) : bool := (Byte.to_N a <? Byte.to_N b)%N.
Definition byte_of_N (n : N) : byte :=
  match Byte.of_N (n mod 256) with Some b => b | None => x00 end.
Definition byte_of_Z (z : Z) : byte := byte_of_N (Z.to_N (z mod 256)).

(** ** Constants (server/constanst.go, handlers/constants.go) *)

Definition SOCKS5H_VERSION : byte := x05.
Definition RSV : byte := x00.

Definition NO_AUTHENTICATION_REQUIRED_method : byte := x00.
Definition GSSAPI_method : byte := x01.
Definition USERNAME_PASSWORD_method : byte := x02.
Definition NO_ACCEPTABLE_METHODS_method : byte := xff.

Definition CONNECT_cmd : byte := x01.
Definition BIND_cmd : byte := x02.
Definition UDP_ASSOCIATE_cmd : byte := x03.

Definition IP_V4_addr : byte := x01.
Definition DOMAINNAME_addr : byte := x03.
Definition IP_V6_addr : byte := x04.

Definition SUCCEEDED_connReply : byte := x00.
Definition GENERAL_SOCKS_SERVER_FAILURE_connReply : byte := x01.
Definition CONNECTION_NOT_ALLOWED_BY_RULESET_connReply : byte := x02.
Definition NETWORK_UNREACHABLE_connReply : byte := x03.
Definition HOST_UNREACHABLE_connReply : byte := x04.
Definition CONNECTION_REFUSED_connReply : byte := x05.
Definition TTL_EXPIRED_connReply : byte := x06.
Definition COMMAND_NOT_SUPPORTED_connReply : byte := x07.
Definition ADDRESS_TYPE_NOT_SUPPORTED_connReply : byte := x08.

Definition TCP_V4 : string := "tcp4".

(** ** The connection *)

Inductive event : Type :=
| EvRead (want : nat) (got : list byte)     (* Read(buf) with len(buf) = want returned len(got), nil *)
| EvReadErr (want : nat) (e : error)        (* Read(buf) returned 0, e *)
| EvWrite (data : list byte) (n : nat)      (* Write(data) accepted the first n bytes *)
| EvClose.

Record Conn : Type := mkConn {
  pending : list (list byte);  (* segments still to arrive from the peer, oldest first *)
  rd_end  : error;             (* what Read reports once they are used up; io_EOF for an orderly close *)
  wr_room : option nat;        (* how many more bytes the peer accepts; None: no limit *)
  log     : list event
}.

Definition add_event (ev : event) (c : Conn) : Conn :=
  mkConn (pending c) (rd_end c) (wr_room c) (log c ++ [ev]).

(** One Read call hands over at most one segment, cut to the buffer. *)
Fixpoint take_segment (n : nat) (p : list (list byte))
  : option (list byte * list (list byte)) :=
  match p with
  | [] => None
  | [] :: p' => take_segment n p'
  | seg :: p' =>
      Some (firstn n seg,
            match skipn n seg with [] => p' | rest => rest :: p' end)
  end.

(** [make([]byte, n)] after a Read that stored [got] at its front. *)
Definition fill (n : nat) (got : list byte) : list byte :=
  got ++ repeat x00 (n - length got).

(** Every byte written so far, in order. *)
Fixpoint written (l : list event) : list byte :=
  match l with
  | [] => []
  | EvWrite data n :: l' => firstn n data ++ written l'
  | _ :: l' => written l'
  end.

(** ** The monad of a handler working on one connection *)

Definition M (A : Type) : Type := Conn -> outcome A * Conn.

Definition ret {A} (a : A) : M A := fun c => (Ok a, c).
Definition fail {A} (e : error) : M A := fun c => (Err e, c).
Definition panic {A} (msg : string) : M A := fun c => (Panic msg, c).
Definition bind {A B} (m : M A) (k : A -> M B) : M B :=
  fun c =>
    match m c with
    | (Ok a, c') => k a c'
    | (Err e, c') => (Err e, c')
    | (Panic msg, c') => (Panic msg, c')
    | (Running, c') => (Running, c')
    end.

Declare Scope go_scope.
Delimit Scope go_scope with go.
Notation "x <- m ;; k" := (bind m (fun x => k))
  (at level 61, m at next level, right associativity) : go_scope.
Notation "' p <- m ;; k" := (bind m (fun x => match x with p => k end))
  (at level 61, p pattern, m at next level, right associativity) : go_scope.
Notation "m ;;; k" := (bind m (fun _ => k))
  (at level 61, right associativity) : go_scope.
Local Open Scope go_scope.

(** [conn.Read(buf)] with [len(buf) = n]: the buffer afterwards, the count
    and the error.  A zero-length buffer returns [0, nil] at once; otherwise
    the call returns what the next segment holds, up to [n] bytes, and the
    terminal error once nothing is left. *)
Definition do_Read (n : nat) (c : Conn) : (list byte * nat * option error) * Conn :=
  match n with
  | O => (([], 0, None), add_event (EvRead 0 []) c)
  | _ =>
      match take_segment n (pending c) with
      | Some (got, p') =>
          ((fill n got, length got, None),
           mkConn p' (rd_end c) (wr_room c) (log c ++ [EvRead n got]))
      | None =>
          ((fill n [], 0, Some (rd_end c)),
           mkConn [] (rd_end c) (wr_room c) (log c ++ [EvReadErr n (rd_end c)]))
      end
  end.

(** [conn.Write(data)]: everything, or the part the peer still accepts
    together with an error. *)
Definition do_Write (data : list byte) (c : Conn) : (nat * option error) * Conn :=
  match wr_room c with
  | None => ((length data, None), add_event (EvWrite data (length data)) c)
  | Some k =>
      if length data <=? k then
        ((length data, None),
         mkConn (pending c) (rd_end c) (Some (k - length data))
                (log c ++ [EvWrite data (length data)]))
      else
        ((k, Some (net_OpError "write: broken pipe")),
         mkConn (pending c) (rd_end c) (Some 0) (log c ++ [EvWrite data k]))
  end.

Definition conn_Read (n : nat) : M (list byte * nat * option error) :=
  fun c => let '(r, c') := do_Read n c in (Ok r, c').

Definition conn_Write (data : list byte) : M (nat * option error) :=
  fun c => let '(r, c') := do_Write data c in (Ok r, c').

Definition conn_Close (c : Conn) : Conn := add_event EvClose c.

(** ** The data model (handlers/model.go) *)

Record Socks5_Req : Type := mkReq {
  Version : byte;
  Cmd     : byte;
  AType   : byte;
  DstAddr : list byte;
  DstPort : list byte;
  req_addr : string;   (* unexported field addr *)
  req_port : Z         (* unexported field port *)
}.

Record Socks5_Res : Type := mkRes {
  Reply    : byte;
  ResAType : byte;     (* field AType of Socks5_Res *)
  BindAddr : string;
  BindPort : Z;
  res_addr : list byte;  (* unexported field addr *)
  res_port : list byte   (* unexported field port *)
}.

(** The zero value [Socks5_Res{}]. *)
Definition Socks5_Res_zero : Socks5_Res := mkRes x00 x00 "" 0 [] [].

(** [binary.BigEndian.Uint16(b)]: indexes [b[1]], so it panics on a slice
    shorter than two bytes. *)
Definition BigEndian_Uint16 (b : list byte) : outcome Z :=
  match b with
  | b0 :: b1 :: _ => Ok (Z.of_N (Byte.to_N b0) * 256 + Z.of_N (Byte.to_N b1))%Z
  | _ => Panic "runtime error: index out of range"
  end.

(** [binary.BigEndian.PutUint16(b, v)] on a fresh two-byte slice. *)
Definition BigEndian_PutUint16 (v : Z) : list byte :=
  [byte_of_Z (Z.shiftr v 8); byte_of_Z v].

Definition uint16 (z : Z) : Z := (z mod 65536)%Z.

(** [%d] of [fmt.Sprintf]. *)
Definition itoa (z : Z) : string := NilZero.string_of_int (Z.to_int z).

Definition AddrStr (s : Socks5_Req) : string :=
  if 0 <? String.length (req_addr s) then req_addr s
  else string_of_list_byte (DstAddr s).

Definition PortNum (s : Socks5_Req) : outcome Z :=
  if (0 <? req_port s)%Z then Ok (req_port s)
  else BigEndian_Uint16 (DstPort s).

Definition FullAddr (s : Socks5_Req) : outcome string :=
  match PortNum s with
  | Ok p => Ok (AddrStr s +++ ":" +++ itoa p)
  | Err e => Err e
  | Panic msg => Panic msg
  | Running => Running
  end.

Definition AddrBytes (s : Socks5_Res) : list byte :=
  if 0 <? length (res_addr s) then res_addr s
  else list_byte_of_string (BindAddr s).

Definition PortBytes (s : Socks5_Res) : list byte :=
  if 0 <? length (res_port s) then res_port s
  else BigEndian_PutUint16 (uint16 (BindPort s)).

(** ** The codec functions both packages carry in identical copies *)

(** [slices.Contains(methods, m)] *)
Definition slices_Contains (l : list byte) (m : byte) : bool :=
  existsb (Byte.eqb m) l.

(** The two bytes [replyMethodSelection] builds before writing them. *)
Definition methodSelectionReply (methods : list byte) : list byte :=
  [SOCKS5H_VERSION;
   if slices_Contains methods NO_AUTHENTICATION_REQUIRED_method
   then NO_AUTHENTICATION_REQUIRED_method
   else NO_ACCEPTABLE_METHODS_method].

Definition replyMethodSelection (methods : list byte) : M unit :=
  '(_, err) <- conn_Write (methodSelectionReply methods) ;;
  match err with
  | Some e => fail e
  | None => ret tt
  end.

Definition readIPV4Addr : M (list byte * list byte) :=
  '(ipv4, readLen, err) <- conn_Read 4 ;;
  match err with
  | Some e => fail e
  | None =>
      if negb (readLen =? 4) then fail (errors_New "unable to ipv4")
      else
        '(port, readLen, err) <- conn_Read 2 ;;
        match err with
        | Some e => fail e
        | None =>
            if negb (readLen =? 2) then fail (errors_New "unable to ipv4 port")
            else ret (ipv4, port)
        end
  end.

Definition readDomainNameAddr : M (list byte * list byte) :=
  '(length_, readLen, err) <- conn_Read 1 ;;
  match err with
  | Some e => fail e
  | None =>
      if negb (readLen =? 1) then fail (errors_New "unable to read domain name length")
      else
        let n := Byte.to_nat (hd x00 length_) in
        '(domainName, readLen, err) <- conn_Read n ;;
        match err with
        | Some e => fail e
        | None =>
            if negb (readLen =? n) then fail (errors_New "unable to domain name")
            else
              '(port, readLen, err) <- conn_Read 2 ;;
              match err with
              | Some e => fail e
              | None =>
                  if negb (readLen =? 2) then fail (errors_New "unable to domain name port")
                  else ret (domainName, port)
              end
        end
  end.

Definition readIPV6Addr : M (list byte * list byte) :=
  '(ipv6, readLen, err) <- conn_Read 16 ;;
  match err with
  | Some e => fail e
  | None =>
      if negb (readLen =? 16) then fail (errors_New "unable to ipv6")
      else
        '(port, readLen, err) <- conn_Read 2 ;;
        match err with
        | Some e => fail e
        | None =>
            if negb (readLen =? 2) then fail (errors_New "unable to ipv6 port")
            else ret (ipv6, port)
        end
  end.

(** The header checks and the address dispatch of [readSockRequest], shared
    by the two packages; [server] wraps the result in a [Socks5_Req],
    [handlers] prints it and returns only the error. *)
Definition readSockRequest_fields : M (byte * byte * byte * list byte * list byte) :=
  '(header, readLen, err) <- conn_Read 4 ;;
  match err with
  | Some e => fail e
  | None =>
      if negb (readLen =? 4)
      then fail (errors_New "ver to aytp in socks5h request isn't of length 4")
      else
        let ver := nth 0 header x00 in
        let cmd := nth 1 header x00 in
        let rsv := nth 2 header x00 in
        let atyp := nth 3 header x00 in
        if negb (Byte.eqb ver SOCKS5H_VERSION) || negb (Byte.eqb rsv RSV)
        then fail (errors_New "invalid version or rsv")
        else if byte_ltb cmd CONNECT_cmd || byte_ltb UDP_ASSOCIATE_cmd cmd
        then fail (errors_New "request cmd type is invalid")
        else
          '(addr, port) <-
             (if Byte.eqb atyp IP_V4_addr then readIPV4Addr
              else if Byte.eqb atyp DOMAINNAME_addr then readDomainNameAddr
              else if Byte.eqb atyp IP_V6_addr then readIPV6Addr
              else fail (errors_New "invalid atyp provided")) ;;
          ret (ver, cmd, atyp, addr, port)
  end.

(** ** net.IP and net.Dial (Go standard library) *)

Record TCPAddr : Type := mkTCPAddr { IP : list byte; Port : Z }.

(** [ip.To4()]; [None] is the nil slice. *)
Definition IP_To4 (ip : list byte) : option (list byte) :=
  if length ip =? 4 then Some ip
  else if (length ip =? 16)
          && forallb (Byte.eqb x00) (firstn 10 ip)
          && Byte.eqb (nth 10 ip x00) xff
          && Byte.eqb (nth 11 ip x00) xff
  then Some (skipn 12 ip)
  else None.

(** [ip.To16()] *)
Definition IP_To16 (ip : list byte) : option (list byte) :=
  if length ip =? 4 then Some (repeat x00 10 ++ [xff; xff] ++ ip)
  else if length ip =? 16 then Some ip
  else None.

Definition hexDigit (n : N) : string :=
  match String.get (N.to_nat (n mod 16)) "0123456789abcdef" with
  | Some a => String a ""
  | None => ""
  end.

(** Lower-case hexadecimal without leading zeros, of a 16-bit group. *)
Definition appendHex (v : N) : string :=
  if (v =? 0)%N then "0"
  else String.concat ""
         (map (fun j => if (0 <? N.shiftr v (4 * j))%N
                        then hexDigit (N.shiftr v (4 * j)) else "")
              [3; 2; 1; 0]%N).

Definition hexString (b : list byte) : string :=
  String.concat ""
    (map (fun x => hexDigit (N.shiftr (Byte.to_N x) 4) +++ hexDigit (Byte.to_N x)) b).

Definition v6u16 (ip : list byte) (i : nat) : N :=
  (Byte.to_N (nth (2 * i) ip x00) * 256 + Byte.to_N (nth (2 * i + 1) ip x00))%N.

Fixpoint zero_run_end (ip : list byte) (j fuel : nat) : nat :=
  match fuel with
  | O => j
  | S fuel' =>
      if (j <? 8) && (v6u16 ip j =? 0)%N then zero_run_end ip (S j) fuel' else j
  end.

(** The longest run of two or more zero groups, the first one on a tie. *)
Definition longest_zero_run (ip : list byte) : nat * nat :=
  fold_left
    (fun (z : nat * nat) i =>
       let j := zero_run_end ip i 8 in
       if (2 <=? j - i) && (snd z - fst z <? j - i) then (i, j) else z)
    (seq 0 8) (255, 255).

Fixpoint string6_from (ip : list byte) (zs ze i fuel : nat) : string :=
  match fuel with
  | O => ""
  | S fuel' =>
      if 8 <=? i then ""
      else if i =? zs then
        "::" +++ (if 8 <=? ze then ""
                  else appendHex (v6u16 ip ze) +++ string6_from ip zs ze (S ze) fuel')
      else
        (if 0 <? i then ":" else "") +++ appendHex (v6u16 ip i)
        +++ string6_from ip zs ze (S i) fuel'
  end.

(** [ip.String()] *)
Definition IP_String (ip : list byte) : string :=
  if length ip =? 0 then "<nil>"
  else if negb (length ip =? 4) && negb (length ip =? 16) then "?" +++ hexString ip
  else
    match IP_To4 ip with
    | Some p4 =>
        String.concat "." (map (fun x => itoa (Z.of_N (Byte.to_N x))) p4)
    | None =>
        let z := longest_zero_run ip in
        string6_from ip (fst z) (snd z) 0 9
    end.

(** An outbound connection as [net.Dial] returns it: its local endpoint
    ([None]: [LocalAddr()] yields a nil interface) and the socket itself. *)
Record Remote : Type := mkRemote { r_LocalAddr : option TCPAddr; r_conn : Conn }.

(** [net.Dial(network, address)]: what the network answers. *)
Definition Dialer : Type := string -> string -> Remote + error.

(** ** The greeting, read by the first statements of [handleSOCKS5]
    (the same statements in both packages): the count byte, then, when it is
    positive, one Read into a buffer of that many bytes whose count is
    dropped ([_, err := conn.Read(methods)]). *)
Definition readGreeting : M (list byte) :=
  '(nmethods, _, err) <- conn_Read 1 ;;
  match err with
  | Some e => fail e
  | None =>
      if (0 <? length nmethods) && byte_ltb x00 (hd x00 nmethods) then
        '(methods, _, err) <- conn_Read (Byte.to_nat (hd x00 nmethods)) ;;
        match err with
        | Some e => fail e
        | None => ret methods
        end
      else ret []
  end.

(** ** Package handlers: the handshake without proxying *)

Module handlers.

Definition readSockRequest : M unit :=
  '(_, _, _, addr, port) <- readSockRequest_fields ;;
  ret tt.

Definition handleSOCKS5 : M unit :=
  methods <- readGreeting ;;
  replyMethodSelection methods ;;;
  readSockRequest ;;;
  ret tt.

Definition Handle_SOCKS5H_Connection : M unit :=
  fun conn =>
    let body : M unit :=
      '(version, _, err) <- conn_Read 1 ;;
      match err with
      | Some e => fail e
      | None =>
          if (0 <? length version) && Byte.eqb (hd x00 version) SOCKS5H_VERSION
          then handleSOCKS5
          else fail (errors_New "non socks5h connection received")
      end in
    let '(r, conn') := body conn in
    (r, conn_Close conn').

End handlers.

(** ** Package server: the handshake, the dial and the tunnel *)

Module server.

Definition readSockRequest : M Socks5_Req :=
  '(ver, cmd, atyp, addr, port) <- readSockRequest_fields ;;
  ret (mkReq ver cmd atyp addr port "" 0%Z).

(** The [switch req.AType] of [connectDst]: the named results after it. *)
Definition connectDst_switch (dial : Dialer) (req : Socks5_Req)
  : outcome (option Remote * Socks5_Res * option error) :=
  if Byte.eqb (AType req) DOMAINNAME_addr then
    match FullAddr req with
    | Ok address =>
        match dial TCP_V4 address with
        | inl remote =>
            Ok (Some remote,
                mkRes SUCCEEDED_connReply x00 "" 0%Z [] [], None)
        | inr err => Ok (None, Socks5_Res_zero, Some err)
        end
    | Err e => Err e
    | Panic msg => Panic msg
    | Running => Running
    end
  else
    Ok (None, mkRes ADDRESS_TYPE_NOT_SUPPORTED_connReply x00 "" 0%Z [] [], None).

(** The local address of [remote] is fetched, and asserted to be a TCP
    address, before [remote] is compared with nil: the method call on a
    nil interface panics. *)
Definition connectDst (dial : Dialer) (req : Socks5_Req)
  : outcome (option Remote * Socks5_Res * option error) :=
  match connectDst_switch dial req with
  | Ok (remote, res, err) =>
      match remote with
      | None => Panic "runtime error: invalid memory address or nil pointer dereference"
      | Some r =>
          match r_LocalAddr r with
          | None => Panic "interface conversion: interface is nil, not *net.TCPAddr"
          | Some localAddr =>
              let atype :=
                match IP_To4 (IP localAddr) with
                | Some _ => IP_V4_addr
                | None =>
                    match IP_To16 (IP localAddr) with
                    | Some _ => IP_V6_addr
                    | None => DOMAINNAME_addr
                    end
                end in
              Ok (remote,
                  mkRes (Reply res) atype (IP_String (IP localAddr)) (Port localAddr)
                        (res_addr res) (res_port res),
                  err)
          end
      end
  | Err e => Err e
  | Panic msg => Panic msg
  | Running => Running
  end.

Definition prepareProxy (dial : Dialer) (req : Socks5_Req)
  : outcome (option Remote * Socks5_Res * option error) :=
  if Byte.eqb (Cmd req) CONNECT_cmd then connectDst dial req
  else Ok (None, Socks5_Res_zero, None).

(** The bytes [replyConnInfo] hands to [conn.Write]. *)
Definition connReply (res : Socks5_Res) : list byte :=
  [SOCKS5H_VERSION; Reply res; RSV; ResAType res] ++ AddrBytes res ++ PortBytes res.

Definition replyConnInfo (res : Socks5_Res) : M unit :=
  let reply := connReply res in
  '(wLen, err) <- conn_Write reply ;;
  match err with
  | Some e => fail e
  | None =>
      if negb (wLen =? length reply)
      then fail (errors_New "couldn't reply complete connect reply")
      else ret tt
  end.

(** *** The tunnel

    [io.Copy(dst, src)] is a loop; one turn of it reads once from [src]
    into a 32 KiB buffer and writes what it got to [dst].  The result is
    [Some r] when the loop ends with error [r] and [None] when it goes
    round again. *)
Definition copy_buffer_size : nat := 32 * 1024.

Definition io_Copy_turn (dst src : Conn) : option (option error) * Conn * Conn :=
  let '((buf, nr, er), src') := do_Read copy_buffer_size src in
  let '(stop, dst') :=
    if 0 <? nr then
      let '((nw, ew), dst') := do_Write (firstn nr buf) dst in
      (match ew with
       | Some e => Some e
       | None => if nr =? nw then None else Some io_ErrShortWrite
       end, dst')
    else (None, dst) in
  match stop with
  | Some e => (Some (Some e), dst', src')
  | None =>
      match er with
      | Some io_EOF => (Some None, dst', src')
      | Some e => (Some (Some e), dst', src')
      | None => (None, dst', src')
      end
  end.

(** The two units of execution of [tunnel]: the caller, copying remote to
    client, and the goroutine it starts, copying client to remote. *)
Inductive tid : Type := T_main | T_go.

Record Tunnel : Type := mkTunnel {
  tn_client : Conn;
  tn_remote : Conn;
  readErr : option error;    (* the named result readErr *)
  writeErr : option error;   (* the named result writeErr, assigned by the goroutine *)
  go_running : bool          (* the goroutine's io.Copy has not returned yet *)
}.

(** One turn of the goroutine [func() { _, writeErr = io.Copy(remote, client) }]. *)
Definition go_step (t : Tunnel) : Tunnel :=
  if go_running t then
    match io_Copy_turn (tn_remote t) (tn_client t) with
    | (Some r, remote', client') => mkTunnel client' remote' (readErr t) r false
    | (None, remote', client') => mkTunnel client' remote' (readErr t) (writeErr t) true
    end
  else t.

(** One turn of [_, readErr = io.Copy(client, remote)] in the caller; [true]
    when the copy has returned, after which [tunnel] returns. *)
Definition main_step (t : Tunnel) : bool * Tunnel :=
  match io_Copy_turn (tn_client t) (tn_remote t) with
  | (Some r, client', remote') =>
      (true, mkTunnel client' remote' r (writeErr t) (go_running t))
  | (None, client', remote') =>
      (false, mkTunnel client' remote' (readErr t) (writeErr t) (go_running t))
  end.

(** Run under a schedule that says whose turn is next; [Some t] is the
    state at the moment [tunnel] returns, [None] when it has not returned
    by the end of the schedule. *)
Fixpoint tunnel_run (sched : list tid) (t : Tunnel) : option Tunnel :=
  match sched with
  | [] => None
  | T_go :: sched' => tunnel_run sched' (go_step t)
  | T_main :: sched' =>
      match main_step t with
      | (true, t') => Some t'
      | (false, t') => tunnel_run sched' t'
      end
  end.

Definition tunnel (sched : list tid) (client remote : Conn) : option Tunnel :=
  tunnel_run sched (mkTunnel client remote None None true).

Definition newline : string := String (ascii_of_nat 10) "".

(** The last statement of [handleSOCKS5]: call [tunnel] and, when either
    result is non-nil, return the two of them formatted into one error.
    The client connection is followed up to the moment [tunnel] returns: a
    goroutine that is still running then ([go_running t = true]) goes on by
    itself, and the calls it makes on the connection afterwards are not in
    the log returned here. *)
Definition relay (sched : list tid) (remote : Remote) : M unit :=
  fun conn =>
    match tunnel sched conn (r_conn remote) with
    | None => (Running, conn)
    | Some t =>
        match readErr t, writeErr t with
        | None, None => (Ok tt, tn_client t)
        | rErr, wErr =>
            (Err (fmt_Errorf ("readError: " +++ verb_v rErr +++ newline
                              +++ "writeError: " +++ verb_v wErr)),
             tn_client t)
        end
    end.

Definition handleSOCKS5 (dial : Dialer) (sched : list tid) : M unit :=
  methods <- readGreeting ;;
  replyMethodSelection methods ;;;
  req <- readSockRequest ;;
  match prepareProxy dial req with
  | Ok (remote, res, err) =>
      match err with
      | Some e => fail e
      | None =>
          match remote with
          | None => fail (errors_New "could not create remote connection")
          | Some r => replyConnInfo res ;;; relay sched r
          end
      end
  | Err e => fail e
  | Panic msg => panic msg
  | Running => fun conn => (Running, conn)
  end.

(** [defer conn.Close()] runs on every way out, a panic included. *)
Definition handle_socks5_connection (dial : Dialer) (sched : list tid) : M unit :=
  fun conn =>
    let body : M unit :=
      '(version, _, err) <- conn_Read 1 ;;
      match err with
      | Some e => fail e
      | None =>
          if (0 <? length version) && Byte.eqb (hd x00 version) SOCKS5H_VERSION
          then handleSOCKS5 dial sched
          else fail (errors_New "non socks5h connection received")
      end in
    match body conn with
    | (Running, conn') => (Running, conn')
    | (r, conn') => (r, conn_Close conn')
    end.

End server.

(** ** Connections and networks the examples run on *)

(** A client that delivers [segs] and then closes; it accepts every write. *)
Definition client_of (segs : list (list byte)) : Conn := mkConn segs io_EOF None [].

(** An outbound socket bound to 127.0.0.1:54321 whose peer closes at once. *)
Definition loopback_remote : Remote :=
  mkRemote (Some (mkTCPAddr [x7f; x00; x00; x01] 54321%Z)) (mkConn [] io_EOF None []).

(** A network on which every dial succeeds, and one on which every dial fails. *)
Definition dial_any : Dialer := fun _ _ => inl loopback_remote.
Definition dial_refused : Dialer :=
  fun _ _ => inr (net_OpError "dial tcp4: connect: connection refused").

(** Scenario A: greeting 05 01 00, then CONNECT to 127.0.0.1:80 as IPv4. *)
Definition scenario_A : Conn :=
  client_of [[x05; x01; x00];
             [x05; x01; x00; x01; x7f; x00; x00; x01; x00; x50]].

(** The same greeting, then CONNECT to the domain name "a", port 80. *)
Definition connect_domain : Conn :=
  client_of [[x05; x01; x00]; [x05; x01; x00; x03; x01; x61; x00; x50]].

(** The request of [connect_domain] alone, and what the parser makes of it. *)
Definition domain_request_bytes : Conn :=
  client_of [[x05; x01; x00; x03; x01; x61; x00; x50]].
Definition domain_request : Socks5_Req :=
  mkReq x05 x01 x03 [x61] [x00; x50] "" 0%Z.

(** The request of scenario A as the parser returns it. *)
Definition ipv4_request : Socks5_Req :=
  mkReq x05 x01 x01 [x7f; x00; x00; x01] [x00; x50] "" 0%Z.

(** A CONNECT request for a domain name of length 0, port 80. *)
Definition empty_domain_bytes : Conn :=
  client_of [[x05; x01; x00; x03; x00; x00; x50]].

(** A request whose reserved byte is 01. *)
Definition bad_rsv_bytes : Conn :=
  client_of [[x05; x01; x01; x01; x7f; x00; x00; x01; x00; x50]].

(** A greeting offering GSSAPI and USERNAME/PASSWORD (05 02 01 02) whose
    last byte travels in a segment of its own. *)
Definition split_greeting : Conn := client_of [[x05; x02; x01]; [x02]].

(** A greeting offering USERNAME/PASSWORD only, followed by a request. *)
Definition no_acceptable_greeting : Conn :=
  client_of [[x01; x02]; [x05; x01; x00; x03; x01; x61; x00; x50]].

(** A client with one byte to send, and a remote that has closed: it
    delivers end of file and takes no more bytes. *)
Definition talking_client : Conn := mkConn [[x41]] io_EOF None [].
Definition closed_remote : Conn := mkConn [] io_EOF (Some 0) [].

(** A remote that sends the two bytes "HI" and closes. *)
Definition chatty_remote : Conn := mkConn [[x48; x49]] io_EOF None [].

(** The goroutine copies the client's byte and sees its end of file, then
    the caller copies the remote's two bytes and sees its end of file. *)
Definition go_first : list server.tid :=
  [server.T_go; server.T_go; server.T_main; server.T_main].

(** A request with the address type 02, which is not defined. *)
Definition unknown_atyp_bytes : Conn :=
  client_of [[x05; x01; x00; x02; x7f; x00; x00; x01; x00; x50]].

(** A first byte 04 (SOCKS version 4). *)
Definition socks4_bytes : Conn := client_of [[x04; x01; x00; x50]].

(** A greeting offering NO_AUTH, then a BIND request for the domain "a". *)
Definition bind_request_stream : Conn :=
  client_of [[x01; x00]; [x05; x02; x00; x03; x01; x61; x00; x50]].

(** A greeting offering GSSAPI and NO_AUTH in one segment, and one with an
    empty method list. *)
Definition two_method_greeting : Conn := client_of [[x02; x01; x00]].
Definition no_method_greeting : Conn := client_of [[x00]].

(** A client that takes only one more byte. *)
Definition one_byte_left : Conn := mkConn [[x01; x00]] io_EOF (Some 1) [].

(** A reply for the bound address "a" and port 80. *)
Definition text_reply : Socks5_Res := mkRes x00 x03 "a" 80%Z [] [].

(** A network on which every dial yields a socket bound to 10.0.0.7:40000
    whose peer sends "HI" and closes. *)
Definition dial_chatty : Dialer :=
  fun _ _ => inl (mkRemote (Some (mkTCPAddr [x0a; x00; x00; x07] 40000%Z))
                           chatty_remote).

(** ** Predicates the statements are written with *)

(** The command byte is one of CONNECT (1), BIND (2), UDP ASSOCIATE (3). *)
Definition cmd_in_range (cmd : byte) : Prop :=
  (1 <= Byte.to_N cmd <= 3)%N.

(** The log of [c'] continues the log of [c]. *)
Definition extends (c c' : Conn) : Prop := exists l, log c' = log c ++ l.

(** A computation that only ever adds to the log of the connection. *)
Definition grows {A} (m : M A) : Prop :=
  forall c r c', m c = (r, c') -> extends c c'.

(** The event a Read of [n] bytes leaves in the log. *)
Definition is_read_of (n : nat) (ev : event) : Prop :=
  match ev with
  | EvRead want _ => want = n
  | EvReadErr want _ => want = n
  | _ => False
  end.

(** The bytes the peer has still to deliver, as one stream. *)
Definition stream (c : Conn) : list byte := concat (pending c).

(** A Read that filled its buffer, or any event that is not a Read. *)
Definition full_read (ev : event) : Prop :=
  match ev with
  | EvRead want got => length got = want
  | EvReadErr _ _ => False
  | _ => True
  end.




(** A computation that has returned whenever it is looked at: it never
    waits on the tunnel. *)
Definition returns {A} (m : M A) : Prop :=
  forall c r c', m c = (r, c') -> r <> Running.

(** A computation that writes nothing to the connection. *)
Definition reads_only {A} (m : M A) : Prop :=
  forall c r c', m c = (r, c') -> written (log c') = written (log c).

(** * Properties *)

(** ** The connection model *)

Lemma written_app (l1 l2 : list event) :
  written (l1 ++ l2) = written l1 ++ written l2.
Proof.
  induction l1 as [|ev l1 IH]; simpl; [reflexivity|].
  destruct ev; simpl; rewrite IH; try reflexivity.
  now rewrite app_assoc.
Qed.

Lemma take_segment_length n p got p' :
  take_segment n p = Some (got, p') -> length got <= n.
Proof.
  induction p as [|seg p IH]; simpl; [discriminate|].
  destruct seg as [|b seg]; [exact IH|].
  intros H. injection H as <- _. apply firstn_le_length.
Qed.

Lemma fill_length n got : length got <= n -> length (fill n got) = n.
Proof.
  intros H. unfold fill. rewrite length_app, repeat_length. lia.
Qed.

Lemma fill_full n got : length got = n -> fill n got = got.
Proof.
  intros H. unfold fill. rewrite H, Nat.sub_diag. simpl. apply app_nil_r.
Qed.

(** A Read returns a buffer of the length asked for, a count within it,
    and adds exactly one read event to the log. *)
Lemma do_Read_spec n c buf k err c' :
  do_Read n c = ((buf, k, err), c') ->
  length buf = n /\ k <= n /\ wr_room c' = wr_room c /\
  exists ev, log c' = log c ++ [ev] /\
             match ev with
             | EvRead want got => want = n /\ k = length got /\ buf = fill n got
             | EvReadErr want e => want = n /\ err = Some e
             | _ => False
             end.
Proof.
  unfold do_Read. destruct n as [|n].
  - intros H. injection H as <- <- <- <-. simpl. repeat split; auto.
    eexists. split; [reflexivity|]. simpl. auto.
  - destruct (take_segment (S n) (pending c)) as [[got p']|] eqn:E.
    + intros H. injection H as <- <- <- <-. simpl.
      pose proof (take_segment_length _ _ _ _ E) as L.
      repeat split; auto.
      * now apply fill_length.
      * eexists. split; [reflexivity|]. simpl. auto.
    + intros H. injection H as <- <- <- <-. simpl.
      repeat split; auto; try lia.
      * now rewrite repeat_length.
      * eexists. split; [reflexivity|]. simpl. auto.
Qed.

Lemma do_Read_written n c r c' :
  do_Read n c = (r, c') -> written (log c') = written (log c).
Proof.
  destruct r as [[buf k] err]. intros H.
  destruct (do_Read_spec _ _ _ _ _ _ H) as (_ & _ & _ & ev & -> & Hev).
  rewrite written_app. destruct ev; simpl; try contradiction; apply app_nil_r.
Qed.

(** A Read that filled its buffer returns exactly the bytes received. *)
Lemma do_Read_full n c buf err c' :
  do_Read n c = ((buf, n, err), c') -> err = None -> 
  length buf = n /\ log c' = log c ++ [EvRead n buf].
Proof.
  intros H ->.
  destruct (do_Read_spec _ _ _ _ _ _ H) as (L & _ & _ & ev & Hl & Hev).
  split; [exact L|]. rewrite Hl.
  destruct ev; try contradiction.
  - destruct Hev as (-> & Hk & ->). now rewrite fill_full.
  - destruct Hev as (_ & Habs). discriminate.
Qed.

(** A Write hands its bytes to the log; it accepts all of them exactly when
    it reports no error. *)
Lemma do_Write_spec data c n err c' :
  do_Write data c = ((n, err), c') ->
  pending c' = pending c /\ log c' = log c ++ [EvWrite data n] /\ n <= length data /\
  (err = None <-> n = length data).
Proof.
  unfold do_Write. destruct (wr_room c) as [k|].
  - destruct (length data <=? k) eqn:E.
    + intros H. injection H as <- <- <-. simpl. repeat split; auto.
    + apply Nat.leb_gt in E. intros H. injection H as <- <- <-. simpl.
      repeat split; auto; try lia; try discriminate.
  - intros H. injection H as <- <- <-. simpl. repeat split; auto.
Qed.

(** ** The address readers and the request parser *)

Ltac unfold_go := unfold bind, conn_Read, conn_Write, ret, fail, panic in *.

(** Split one checked Read of a reader that is known to have succeeded. *)
Ltac checked_read H n c :=
  let buf := fresh "buf" in let k := fresh "k" in let err := fresh "err" in
  let c1 := fresh "c" in let E := fresh "Rd" in let K := fresh "K" in
  destruct (do_Read n c) as [[[buf k] err] c1] eqn:E;
  destruct err; [discriminate H|];
  destruct (k =? n) eqn:K; cbn [negb] in H; [|discriminate H];
  apply Nat.eqb_eq in K; subst k.

Lemma readIPV4Addr_ok c a p c' :
  readIPV4Addr c = (Ok (a, p), c') ->
  exists c1, do_Read 4 c = ((a, 4, None), c1) /\ do_Read 2 c1 = ((p, 2, None), c').
Proof.
  unfold readIPV4Addr. unfold_go. intros H.
  checked_read H 4 c. checked_read H 2 c0.
  injection H as <- <- <-. eauto.
Qed.

Lemma readIPV6Addr_ok c a p c' :
  readIPV6Addr c = (Ok (a, p), c') ->
  exists c1, do_Read 16 c = ((a, 16, None), c1) /\ do_Read 2 c1 = ((p, 2, None), c').
Proof.
  unfold readIPV6Addr. unfold_go. intros H.
  checked_read H 16 c. checked_read H 2 c0.
  injection H as <- <- <-. eauto.
Qed.

Lemma readDomainNameAddr_ok c a p c' :
  readDomainNameAddr c = (Ok (a, p), c') ->
  exists l c1 c2,
    do_Read 1 c = (([l], 1, None), c1) /\
    do_Read (Byte.to_nat l) c1 = ((a, Byte.to_nat l, None), c2) /\
    do_Read 2 c2 = ((p, 2, None), c').
Proof.
  unfold readDomainNameAddr. unfold_go. intros H.
  checked_read H 1 c.
  destruct (do_Read_full _ _ _ _ _ Rd eq_refl) as [L _].
  destruct buf as [|l [|? ?]]; try discriminate L. cbn [hd] in H.
  checked_read H (Byte.to_nat l) c0. checked_read H 2 c1.
  injection H as <- <- <-. eauto 6.
Qed.

Lemma readIPV4Addr_run c a p c1 c' :
  do_Read 4 c = ((a, 4, None), c1) -> do_Read 2 c1 = ((p, 2, None), c') ->
  readIPV4Addr c = (Ok (a, p), c').
Proof.
  intros H1 H2. unfold readIPV4Addr. unfold_go. rewrite H1, Nat.eqb_refl. cbn [negb].
  now rewrite H2.
Qed.

Lemma readIPV6Addr_run c a p c1 c' :
  do_Read 16 c = ((a, 16, None), c1) -> do_Read 2 c1 = ((p, 2, None), c') ->
  readIPV6Addr c = (Ok (a, p), c').
Proof.
  intros H1 H2. unfold readIPV6Addr. unfold_go. rewrite H1, Nat.eqb_refl. cbn [negb].
  now rewrite H2.
Qed.

Lemma readDomainNameAddr_run c l a p c1 c2 c' :
  do_Read 1 c = (([l], 1, None), c1) ->
  do_Read (Byte.to_nat l) c1 = ((a, Byte.to_nat l, None), c2) ->
  do_Read 2 c2 = ((p, 2, None), c') ->
  readDomainNameAddr c = (Ok (a, p), c').
Proof.
  intros H1 H2 H3. unfold readDomainNameAddr. unfold_go.
  rewrite H1, Nat.eqb_refl. cbn [negb hd]. rewrite H2, Nat.eqb_refl. cbn [negb].
  now rewrite H3.
Qed.

Lemma cmd_check cmd :
  byte_ltb cmd CONNECT_cmd || byte_ltb UDP_ASSOCIATE_cmd cmd = false <-> cmd_in_range cmd.
Proof.
  unfold byte_ltb, cmd_in_range, CONNECT_cmd, UDP_ASSOCIATE_cmd.
  change (Byte.to_N x01) with 1%N. change (Byte.to_N x03) with 3%N.
  rewrite orb_false_iff, !N.ltb_ge. tauto.
Qed.

(** What a successful parse of the request has read. *)
Lemma readSockRequest_fields_ok c ver cmd atyp addr port c' :
  readSockRequest_fields c = (Ok (ver, cmd, atyp, addr, port), c') ->
  exists rsv c1,
    do_Read 4 c = (([ver; cmd; rsv; atyp], 4, None), c1) /\
    ver = SOCKS5H_VERSION /\ rsv = RSV /\ cmd_in_range cmd /\
    ((atyp = IP_V4_addr /\ readIPV4Addr c1 = (Ok (addr, port), c')) \/
     (atyp = DOMAINNAME_addr /\ readDomainNameAddr c1 = (Ok (addr, port), c')) \/
     (atyp = IP_V6_addr /\ readIPV6Addr c1 = (Ok (addr, port), c'))).
Proof.
  unfold readSockRequest_fields. unfold bind at 1. unfold conn_Read at 1. intros H.
  destruct (do_Read 4 c) as [[[hdr k] err] c1] eqn:Rd.
  destruct err; [discriminate H|].
  destruct (k =? 4) eqn:K; cbn [negb] in H; [|discriminate H].
  apply Nat.eqb_eq in K; subst k.
  destruct (do_Read_full _ _ _ _ _ Rd eq_refl) as [L _].
  destruct hdr as [|b0 [|b1 [|b2 [|b3 [|? ?]]]]]; try discriminate L.
  cbn [nth] in H.
  destruct (Byte.eqb b0 SOCKS5H_VERSION) eqn:V; cbn [negb orb] in H; [|discriminate H].
  destruct (Byte.eqb b2 RSV) eqn:R; cbn [negb] in H; [|discriminate H].
  apply Byte.byte_dec_bl in V, R.
  destruct (byte_ltb b1 CONNECT_cmd || byte_ltb UDP_ASSOCIATE_cmd b1) eqn:C;
    [discriminate H|].
  apply cmd_check in C.
  unfold bind in H.
  destruct (Byte.eqb b3 IP_V4_addr) eqn:A4;
    [|destruct (Byte.eqb b3 DOMAINNAME_addr) eqn:A3;
      [|destruct (Byte.eqb b3 IP_V6_addr) eqn:A6; [|discriminate H]]].
  - apply Byte.byte_dec_bl in A4.
    destruct (readIPV4Addr c1) as [[[a p]| | |] c2] eqn:E; try discriminate H.
    injection H as <- <- <- <- <- <-. exists b2, c1. do 4 (split; [first [reflexivity|assumption]|]). auto.
  - apply Byte.byte_dec_bl in A3.
    destruct (readDomainNameAddr c1) as [[[a p]| | |] c2] eqn:E; try discriminate H.
    injection H as <- <- <- <- <- <-. exists b2, c1. do 4 (split; [first [reflexivity|assumption]|]). auto.
  - apply Byte.byte_dec_bl in A6.
    destruct (readIPV6Addr c1) as [[[a p]| | |] c2] eqn:E; try discriminate H.
    injection H as <- <- <- <- <- <-. exists b2, c1. do 4 (split; [first [reflexivity|assumption]|]). auto.
Qed.

Lemma server_readSockRequest_ok c req c' :
  server.readSockRequest c = (Ok req, c') ->
  readSockRequest_fields c
  = (Ok (Version req, Cmd req, AType req, DstAddr req, DstPort req), c')
  /\ req_addr req = "" /\ req_port req = 0%Z.
Proof.
  unfold server.readSockRequest, bind. intros H.
  destruct (readSockRequest_fields c) as [[[[[[ver cmd] atyp] addr] port]| | |] c2];
    try discriminate H.
  unfold ret in H. injection H as <- <-. simpl. auto.
Qed.

Lemma BigEndian_Uint16_two b0 b1 :
  exists p, BigEndian_Uint16 [b0; b1] = Ok p /\ (0 <= p < 65536)%Z
            /\ p = (Z.of_N (Byte.to_N b0) * 256 + Z.of_N (Byte.to_N b1))%Z.
Proof.
  eexists. split; [reflexivity|].
  pose proof (Byte.to_N_bounded b0). pose proof (Byte.to_N_bounded b1).
  split; [lia|reflexivity].
Qed.

(** A request built by the parser has empty caches, so its port is decoded
    from [DstPort] whenever that holds two bytes. *)
Lemma PortNum_parsed req :
  req_port req = 0%Z -> length (DstPort req) = 2 ->
  exists p, PortNum req = Ok p /\ (0 <= p < 65536)%Z.
Proof.
  intros Hp L. unfold PortNum. rewrite Hp. cbn.
  destruct (DstPort req) as [|b0 [|b1 [|? ?]]]; try discriminate L.
  destruct (BigEndian_Uint16_two b0 b1) as (p & E & R & _). eauto.
Qed.

Lemma bad_header_rejected c ver cmd rsv atyp c1 :
  do_Read 4 c = (([ver; cmd; rsv; atyp], 4, None), c1) ->
  ver <> SOCKS5H_VERSION \/ rsv <> RSV \/ ~ cmd_in_range cmd ->
  exists e, readSockRequest_fields c = (Err e, c1) /\ error_kind e = ProtocolError.
Proof.
  intros Rd Bad. unfold readSockRequest_fields. unfold bind at 1. unfold conn_Read at 1.
  rewrite Rd. cbn [negb Nat.eqb nth].
  destruct (Byte.eqb ver SOCKS5H_VERSION) eqn:V; cbn [negb orb].
  2:{ eexists. split; reflexivity. }
  destruct (Byte.eqb rsv RSV) eqn:R; cbn [negb].
  2:{ eexists. split; reflexivity. }
  apply Byte.byte_dec_bl in V, R.
  destruct (byte_ltb cmd CONNECT_cmd || byte_ltb UDP_ASSOCIATE_cmd cmd) eqn:C.
  - eexists. split; reflexivity.
  - apply cmd_check in C. tauto.
Qed.

(** ** The greeting and the method selection *)

Lemma slices_Contains_In l m : slices_Contains l m = true <-> In m l.
Proof.
  unfold slices_Contains. rewrite existsb_exists. split.
  - intros (x & Hx & E). apply Byte.byte_dec_bl in E. now subst.
  - intros H. exists m. split; [exact H|]. now apply Byte.byte_dec_lb.
Qed.

Lemma methodSelectionReply_cases methods :
  (In NO_AUTHENTICATION_REQUIRED_method methods /\
   methodSelectionReply methods = [x05; x00]) \/
  (~ In NO_AUTHENTICATION_REQUIRED_method methods /\
   methodSelectionReply methods = [x05; xff]).
Proof.
  unfold methodSelectionReply.
  destruct (slices_Contains methods NO_AUTHENTICATION_REQUIRED_method) eqn:E.
  - left. split; [now apply slices_Contains_In|reflexivity].
  - right. split; [|reflexivity].
    intros H. apply slices_Contains_In in H. congruence.
Qed.

Lemma replyMethodSelection_ok methods c c' :
  replyMethodSelection methods c = (Ok tt, c') ->
  pending c' = pending c /\
  log c' = log c ++ [EvWrite (methodSelectionReply methods) 2].
Proof.
  unfold replyMethodSelection. unfold_go. intros H.
  destruct (do_Write (methodSelectionReply methods) c) as [[n err] c1] eqn:W.
  destruct err; [discriminate H|]. injection H as <-.
  destruct (do_Write_spec _ _ _ _ _ W) as (P & L & _ & F).
  split; [exact P|]. rewrite L.
  replace n with 2; [reflexivity|]. symmetry. now apply F.
Qed.

Lemma readGreeting_written c r c' :
  readGreeting c = (r, c') -> written (log c') = written (log c).
Proof.
  unfold readGreeting. unfold_go.
  destruct (do_Read 1 c) as [[[nm k] err] c1] eqn:R1.
  pose proof (do_Read_written _ _ _ _ R1) as W1.
  destruct err.
  - intros H. injection H as <- <-. exact W1.
  - destruct ((0 <? length nm) && byte_ltb x00 (hd x00 nm)).
    + destruct (do_Read (Byte.to_nat (hd x00 nm)) c1) as [[[ms k2] err2] c2] eqn:R2.
      pose proof (do_Read_written _ _ _ _ R2) as W2.
      destruct err2; intros H; injection H as <- <-; congruence.
    + intros H. injection H as <- <-. exact W1.
Qed.

(** ** Calls on the connection only ever add to its log *)

Lemma extends_refl c : extends c c.
Proof. exists []. now rewrite app_nil_r. Qed.

Lemma extends_trans c1 c2 c3 : extends c1 c2 -> extends c2 c3 -> extends c1 c3.
Proof.
  intros [l1 H1] [l2 H2]. exists (l1 ++ l2). now rewrite H2, H1, app_assoc.
Qed.

Lemma grows_ret {A} (a : A) : grows (ret a).
Proof. intros c r c' H. injection H as _ <-. apply extends_refl. Qed.

Lemma grows_fail {A} e : grows (@fail A e).
Proof. intros c r c' H. injection H as _ <-. apply extends_refl. Qed.

Lemma grows_panic {A} msg : grows (@panic A msg).
Proof. intros c r c' H. injection H as _ <-. apply extends_refl. Qed.

Lemma grows_bind {A B} (m : M A) (k : A -> M B) :
  grows m -> (forall a, grows (k a)) -> grows (bind m k).
Proof.
  intros Hm Hk c r c'. unfold bind.
  destruct (m c) as [[a|e|msg|] c1] eqn:E; intros H.
  - eapply extends_trans; [eapply Hm, E|eapply Hk, H].
  - injection H as _ <-. eapply Hm, E.
  - injection H as _ <-. eapply Hm, E.
  - injection H as _ <-. eapply Hm, E.
Qed.

Lemma do_Read_extends n c r c' : do_Read n c = (r, c') -> extends c c'.
Proof.
  destruct r as [[buf k] err]. intros H.
  destruct (do_Read_spec _ _ _ _ _ _ H) as (_ & _ & _ & ev & L & _).
  now exists [ev].
Qed.

Lemma do_Write_extends data c r c' : do_Write data c = (r, c') -> extends c c'.
Proof.
  destruct r as [n err]. intros H.
  destruct (do_Write_spec _ _ _ _ _ H) as (_ & L & _). eexists. exact L.
Qed.

Lemma grows_conn_Read n : grows (conn_Read n).
Proof.
  intros c r c'. unfold conn_Read.
  destruct (do_Read n c) as [x c1] eqn:E. intros H. injection H as _ <-.
  eapply do_Read_extends, E.
Qed.

Lemma grows_conn_Write data : grows (conn_Write data).
Proof.
  intros c r c'. unfold conn_Write.
  destruct (do_Write data c) as [x c1] eqn:E. intros H. injection H as _ <-.
  eapply do_Write_extends, E.
Qed.

Ltac grows_tac :=
  repeat first
    [ apply grows_ret | apply grows_fail | apply grows_panic
    | apply grows_conn_Read | apply grows_conn_Write
    | apply grows_bind; [|intros]
    | match goal with
      | |- grows (match ?x with _ => _ end) => destruct x
      | |- grows (if ?b then _ else _) => destruct b
      end ].

Lemma grows_readIPV4Addr : grows readIPV4Addr.
Proof. unfold readIPV4Addr. grows_tac. Qed.

Lemma grows_readIPV6Addr : grows readIPV6Addr.
Proof. unfold readIPV6Addr. grows_tac. Qed.

Lemma grows_readDomainNameAddr : grows readDomainNameAddr.
Proof. unfold readDomainNameAddr. grows_tac. Qed.

Lemma grows_replyMethodSelection methods : grows (replyMethodSelection methods).
Proof. unfold replyMethodSelection. grows_tac. Qed.

Lemma grows_replyConnInfo res : grows (server.replyConnInfo res).
Proof. unfold server.replyConnInfo. cbv zeta. grows_tac. Qed.

Create HintDb grows.
#[local] Hint Resolve grows_readIPV4Addr grows_readIPV6Addr grows_readDomainNameAddr
  grows_replyMethodSelection grows_replyConnInfo : grows.

Lemma grows_readSockRequest_fields : grows readSockRequest_fields.
Proof. unfold readSockRequest_fields. grows_tac; auto with grows. Qed.

Lemma bind_conn_Read_first {B} n (k : list byte * nat * option error -> M B) c r c' :
  (forall a, grows (k a)) -> bind (conn_Read n) k c = (r, c') ->
  exists ev l, is_read_of n ev /\ log c' = log c ++ ev :: l.
Proof.
  intros Hk. unfold bind, conn_Read.
  destruct (do_Read n c) as [[[buf m] err] c1] eqn:Rd. intros H.
  destruct (do_Read_spec _ _ _ _ _ _ Rd) as (_ & _ & _ & ev & L & Hev).
  destruct (Hk _ _ _ _ H) as [l Hl].
  exists ev, l. split.
  - destruct ev; simpl; try contradiction; tauto.
  - now rewrite Hl, L, <- app_assoc.
Qed.

Lemma readSockRequest_fields_first_event c r c' :
  readSockRequest_fields c = (r, c') ->
  exists ev l, is_read_of 4 ev /\ log c' = log c ++ ev :: l.
Proof.
  unfold readSockRequest_fields. apply bind_conn_Read_first.
  intros [[hdr k] err]. grows_tac; auto with grows.
Qed.

(** *** The tunnel only adds to the logs of its two connections *)

Lemma io_Copy_turn_extends dst src r dst' src' :
  server.io_Copy_turn dst src = (r, dst', src') -> extends dst dst' /\ extends src src'.
Proof.
  unfold server.io_Copy_turn.
  destruct (do_Read server.copy_buffer_size src) as [[[buf nr] er] src1] eqn:Rd.
  apply do_Read_extends in Rd.
  destruct (0 <? nr).
  - destruct (do_Write (firstn nr buf) dst) as [[nw ew] dst1] eqn:Wr.
    apply do_Write_extends in Wr.
    destruct ew as [e|]; [|destruct (nr =? nw); [destruct er as [[]|]|]];
      intros H; injection H as _ <- <-; auto.
  - destruct er as [[]|]; intros H; injection H as _ <- <-;
      auto using extends_refl.
Qed.

Lemma go_step_extends t : extends (server.tn_client t) (server.tn_client (server.go_step t)).
Proof.
  unfold server.go_step. destruct (server.go_running t); [|apply extends_refl].
  destruct (server.io_Copy_turn (server.tn_remote t) (server.tn_client t))
    as [[[r|] remote'] client'] eqn:E;
    apply io_Copy_turn_extends in E; simpl; tauto.
Qed.

Lemma main_step_extends t b t' :
  server.main_step t = (b, t') -> extends (server.tn_client t) (server.tn_client t').
Proof.
  unfold server.main_step.
  destruct (server.io_Copy_turn (server.tn_client t) (server.tn_remote t))
    as [[[r|] client'] remote'] eqn:E;
    apply io_Copy_turn_extends in E; intros H; injection H as _ <-; simpl; tauto.
Qed.

Lemma tunnel_run_extends sched : forall t t',
  server.tunnel_run sched t = Some t' ->
  extends (server.tn_client t) (server.tn_client t').
Proof.
  induction sched as [|who sched IH]; intros t t'; simpl; [discriminate|].
  destruct who.
  - destruct (server.main_step t) as [[|] t1] eqn:E; intros H.
    + injection H as <-. eapply main_step_extends, E.
    + eapply extends_trans; [eapply main_step_extends, E|apply IH, H].
  - intros H. eapply extends_trans; [apply go_step_extends|apply IH, H].
Qed.

Lemma grows_relay sched remote : grows (server.relay sched remote).
Proof.
  intros c r c'. unfold server.relay, server.tunnel.
  destruct (server.tunnel_run sched _) as [t|] eqn:E.
  - apply tunnel_run_extends in E. simpl in E.
    destruct (server.readErr t), (server.writeErr t);
      intros H; injection H as _ <-; exact E.
  - intros H. injection H as _ <-. apply extends_refl.
Qed.

(** After the method selection, whatever it was, the next call on the
    connection is the Read of the four header bytes of the request. *)
Lemma server_reads_request_next dial sched c0 methods c1 c2 :
  readGreeting c0 = (Ok methods, c1) ->
  replyMethodSelection methods c1 = (Ok tt, c2) ->
  exists ev l, is_read_of 4 ev /\
               log (snd (server.handleSOCKS5 dial sched c0)) = log c2 ++ ev :: l.
Proof.
  intros G S.
  unfold server.handleSOCKS5. unfold bind at 1. rewrite G.
  unfold bind at 1. rewrite S.
  unfold bind at 1. unfold server.readSockRequest. unfold bind at 1.
  destruct (readSockRequest_fields c2) as [[x|e|msg|] c3] eqn:F;
    pose proof (readSockRequest_fields_first_event _ _ _ F) as (ev & l & Hev & L).
  2-4: simpl; eauto.
  destruct x as [[[[ver cmd] atyp] addr] port]. unfold ret at 1.
  match goal with |- context [snd ?X] => destruct X as [r c'] eqn:H end.
  assert (E : extends c3 c').
  { revert H.
    destruct (server.prepareProxy dial _) as [[[remote res] err]|e|msg|].
    - destruct err as [e|]; [apply grows_fail|].
      destruct remote as [rmt|]; [|apply grows_fail].
      intros H.
      exact (grows_bind _ _ (grows_replyConnInfo res)
                        (fun _ => grows_relay sched rmt) _ _ _ H).
    - apply grows_fail.
    - apply grows_panic.
    - intros H. injection H as _ <-. apply extends_refl. }
  destruct E as [l' E]. exists ev, (l ++ l'). split; [exact Hev|].
  simpl. rewrite E, L, <- app_assoc. reflexivity.
Qed.

Lemma handlers_reads_request_next c0 methods c1 c2 :
  readGreeting c0 = (Ok methods, c1) ->
  replyMethodSelection methods c1 = (Ok tt, c2) ->
  exists ev l, is_read_of 4 ev /\
               log (snd (handlers.handleSOCKS5 c0)) = log c2 ++ ev :: l.
Proof.
  intros G S.
  unfold handlers.handleSOCKS5. unfold bind at 1. rewrite G.
  unfold bind at 1. rewrite S.
  unfold bind at 1. unfold handlers.readSockRequest. unfold bind at 1.
  destruct (readSockRequest_fields c2) as [[x|e|msg|] c3] eqn:F;
    pose proof (readSockRequest_fields_first_event _ _ _ F) as (ev & l & Hev & L).
  2-4: simpl; eauto.
  destruct x as [[[[ver cmd] atyp] addr] port]. simpl. eauto.
Qed.

(** ** Three general facts behind the departures recorded below *)

(** [connectDst] has no failure return: whenever it returns at all, the
    dial has succeeded.  A nil [remote] never gets past the request for its
    local address. *)
Lemma connectDst_returns_only_on_success dial req remote res err :
  server.connectDst dial req = Ok (remote, res, err) ->
  exists r, remote = Some r /\ err = None /\ Reply res = SUCCEEDED_connReply.
Proof.
  unfold server.connectDst, server.connectDst_switch.
  destruct (Byte.eqb (AType req) DOMAINNAME_addr); [|discriminate].
  destruct (FullAddr req) as [address| | |]; try discriminate.
  destruct (dial TCP_V4 address) as [r|e]; [|discriminate].
  destruct (r_LocalAddr r); [|discriminate].
  intros H. injection H as <- <- <-. eauto.
Qed.

(** The greeting is taken as read however few of the method bytes the one
    Read delivered; the rest of the buffer keeps its zeros. *)
Lemma readGreeting_ignores_the_count c n c1 buf k c2 :
  do_Read 1 c = (([n], 1, None), c1) ->
  n <> x00 ->
  do_Read (Byte.to_nat n) c1 = ((buf, k, None), c2) ->
  readGreeting c = (Ok buf, c2).
Proof.
  intros R1 Hn R2. unfold readGreeting. unfold_go. rewrite R1. cbn [length hd].
  assert (E : byte_ltb x00 n = true).
  { unfold byte_ltb. apply N.ltb_lt. change (Byte.to_N x00) with 0%N.
    destruct (N.eq_dec (Byte.to_N n) 0) as [Z|Z]; [|lia].
    exfalso. apply Hn. apply (f_equal Byte.of_N) in Z.
    rewrite Byte.of_to_N in Z. now injection Z. }
  rewrite E. cbn. now rewrite R2.
Qed.

Lemma do_Read_at_end n c :
  0 < n -> pending c = [] ->
  do_Read n c
  = ((fill n [], 0, Some (rd_end c)),
     mkConn [] (rd_end c) (wr_room c) (log c ++ [EvReadErr n (rd_end c)])).
Proof.
  intros Hn Hp. unfold do_Read. destruct n; [lia|]. now rewrite Hp.
Qed.

(** Whenever the remote has closed, the caller's first turn ends [tunnel]:
    it returns two nil results without the goroutine having taken a turn. *)
Lemma tunnel_does_not_wait sched client remote :
  pending remote = [] -> rd_end remote = io_EOF ->
  exists t,
    server.tunnel (server.T_main :: sched) client remote = Some t /\
    server.go_running t = true /\
    server.readErr t = None /\ server.writeErr t = None /\
    server.tn_client t = client.
Proof.
  intros Hp He. unfold server.tunnel, server.tunnel_run, server.main_step,
    server.io_Copy_turn. cbn [server.tn_client server.tn_remote].
  rewrite do_Read_at_end; [|unfold server.copy_buffer_size; lia|exact Hp].
  rewrite He. change (0 <? 0) with false. cbv beta iota zeta.
  eexists. split; [reflexivity|]. cbn [server.go_running server.readErr
    server.writeErr server.tn_client]. auto.
Qed.

(** * The claims *)

(** ** The dial step *)

(** C1 (as stated, refuted): scenario A, a CONNECT with an IPv4 destination,
    on a network where every dial succeeds, is parsed without error, yet the
    dial step opens no connection and produces no SUCCEEDED reply: the only
    bytes the client ever receives are the method selection 05 00. *)
Lemma scenario_A_gets_no_reply :
  server.readSockRequest
    (client_of [[x05; x01; x00; x01; x7f; x00; x00; x01; x00; x50]])
  = (Ok ipv4_request,
     mkConn [] io_EOF None
            [EvRead 4 [x05; x01; x00; x01]; EvRead 4 [x7f; x00; x00; x01];
             EvRead 2 [x00; x50]]) /\
  server.connectDst_switch dial_any ipv4_request
  = Ok (None, mkRes ADDRESS_TYPE_NOT_SUPPORTED_connReply x00 "" 0%Z [] [], None) /\
  (forall remote res err,
      server.prepareProxy dial_any ipv4_request <> Ok (Some remote, res, err)) /\
  written (log (snd (server.handle_socks5_connection
                       dial_any [server.T_main] scenario_A)))
  = [x05; x00].
Proof.
  split; [reflexivity|]. split; [reflexivity|]. split; [|reflexivity].
  intros remote res err. discriminate.
Qed.

(** C1 (amended): for every successfully parsed CONNECT request whose address
    type is DOMAINNAME, the dial step turns the destination bytes and the
    big-endian port into the string host:port and dials it over tcp4; when
    the dial succeeds the reply code is SUCCEEDED and the bound address and
    port are those of the local endpoint of the new connection.  For the
    other two address types the address-type switch opens no connection and
    sets the reply code ADDRESS_TYPE_NOT_SUPPORTED. *)
Theorem connect_dials_domain_names dial c req c' :
  server.readSockRequest c = (Ok req, c') ->
  Cmd req = CONNECT_cmd ->
  (AType req = DOMAINNAME_addr ->
   exists port,
     BigEndian_Uint16 (DstPort req) = Ok port /\
     FullAddr req = Ok (string_of_list_byte (DstAddr req) +++ ":" +++ itoa port) /\
     forall remote la,
       dial TCP_V4 (string_of_list_byte (DstAddr req) +++ ":" +++ itoa port)
       = inl remote ->
       r_LocalAddr remote = Some la ->
       exists res,
         server.prepareProxy dial req = Ok (Some remote, res, None) /\
         Reply res = SUCCEEDED_connReply /\
         BindAddr res = IP_String (IP la) /\
         BindPort res = Port la) /\
  (AType req <> DOMAINNAME_addr ->
   exists res,
     server.connectDst_switch dial req = Ok (None, res, None) /\
     Reply res = ADDRESS_TYPE_NOT_SUPPORTED_connReply).
Proof.
  intros Hparse Hcmd.
  destruct (server_readSockRequest_ok _ _ _ Hparse) as (Hf & Ha & Hp).
  split.
  - intros Hat.
    destruct (readSockRequest_fields_ok _ _ _ _ _ _ _ Hf)
      as (rsv & c1 & _ & _ & _ & _ & Hrd).
    assert (L : length (DstPort req) = 2).
    { destruct Hrd as [[E _]|[[_ Hd]|[E _]]].
      - rewrite Hat in E. discriminate E.
      - destruct (readDomainNameAddr_ok _ _ _ _ Hd) as (l & c2 & c3 & _ & _ & R).
        now destruct (do_Read_full _ _ _ _ _ R eq_refl).
      - rewrite Hat in E. discriminate E. }
    destruct (DstPort req) as [|b0 [|b1 [|? ?]]] eqn:EP; try discriminate L.
    destruct (BigEndian_Uint16_two b0 b1) as (port & HB & _ & _).
    assert (HF : FullAddr req
                 = Ok (string_of_list_byte (DstAddr req) +++ ":" +++ itoa port)).
    { unfold FullAddr, PortNum, AddrStr. rewrite Hp, Ha, EP, HB. reflexivity. }
    exists port. split; [exact HB|]. split; [exact HF|].
    intros remote la Hdial Hla.
    unfold server.prepareProxy, server.connectDst, server.connectDst_switch.
    rewrite Hcmd, Hat.
    change (Byte.eqb CONNECT_cmd CONNECT_cmd) with true.
    change (Byte.eqb DOMAINNAME_addr DOMAINNAME_addr) with true.
    cbv iota. rewrite HF, Hdial, Hla.
    eexists. split; [reflexivity|]. simpl. auto.
  - intros Hat.
    unfold server.connectDst_switch.
    destruct (Byte.eqb (AType req) DOMAINNAME_addr) eqn:E.
    + apply Byte.byte_dec_bl in E. contradiction.
    + eexists. split; reflexivity.
Qed.

Lemma connect_dials_domain_names_witness :
  server.readSockRequest domain_request_bytes
  = (Ok domain_request,
     mkConn [] io_EOF None
            [EvRead 4 [x05; x01; x00; x03]; EvRead 1 [x01]; EvRead 1 [x61];
             EvRead 2 [x00; x50]]) /\
  FullAddr domain_request = Ok "a:80" /\
  exists res,
    server.prepareProxy dial_any domain_request = Ok (Some loopback_remote, res, None) /\
    Reply res = SUCCEEDED_connReply /\
    BindAddr res = "127.0.0.1" /\
    BindPort res = 54321%Z.
Proof.
  split; [reflexivity|]. split; [reflexivity|].
  destruct (connect_dials_domain_names dial_any domain_request_bytes domain_request
              _ eq_refl eq_refl) as [Hdomain _].
  destruct (Hdomain eq_refl) as (port & Hport & _ & Hdial).
  injection Hport as <-.
  exact (Hdial loopback_remote (mkTCPAddr [x7f; x00; x00; x01] 54321%Z)
               eq_refl eq_refl).
Defined.

(** C2 (the code departs from it): a CONNECT whose dial is refused, and a
    CONNECT whose address type the switch rejects, both end in a run-time
    panic inside [connectDst]: the local address of the nil connection is
    asked for before the nil check.  No reply is written (the client has
    received the method selection 05 00 and nothing else), and after the
    refused dial the reply code field still holds 00, the value of
    SUCCEEDED. *)
Theorem failed_connect_panics_before_reply :
  server.connectDst_switch dial_refused domain_request
  = Ok (None, Socks5_Res_zero,
        Some (net_OpError "dial tcp4: connect: connection refused")) /\
  Reply Socks5_Res_zero = SUCCEEDED_connReply /\
  server.connectDst dial_refused domain_request
  = Panic "runtime error: invalid memory address or nil pointer dereference" /\
  fst (server.handle_socks5_connection dial_refused [server.T_main] connect_domain)
  = Panic "runtime error: invalid memory address or nil pointer dereference" /\
  written (log (snd (server.handle_socks5_connection
                       dial_refused [server.T_main] connect_domain)))
  = [x05; x00] /\
  server.connectDst dial_any ipv4_request
  = Panic "runtime error: invalid memory address or nil pointer dereference" /\
  fst (server.handle_socks5_connection dial_any [server.T_main] scenario_A)
  = Panic "runtime error: invalid memory address or nil pointer dereference" /\
  written (log (snd (server.handle_socks5_connection
                       dial_any [server.T_main] scenario_A)))
  = [x05; x00].
Proof. repeat split. Qed.

(** ** The tunnel *)

(** C3 (the code departs from it): with a remote that has already closed and
    a client that still has a byte to send, the caller's copy ends on its
    first turn and [tunnel] returns at once, both results nil, while the
    goroutine copying client to remote has not run: the client's byte is
    still unread.  When that goroutine gets its turn its copy fails on the
    write, a result that was never reported. *)
Theorem tunnel_returns_before_goroutine_ends :
  exists t,
    server.tunnel [server.T_main] talking_client closed_remote = Some t /\
    server.go_running t = true /\
    server.readErr t = None /\
    server.writeErr t = None /\
    pending (server.tn_client t) = [[x41]] /\
    server.go_running (server.go_step t) = false /\
    server.writeErr (server.go_step t) = Some (net_OpError "write: broken pipe").
Proof. eexists. repeat split. Qed.

(** ** The connection reply *)

(** C4 (the code departs from it): for the outbound socket bound to
    127.0.0.1:54321 the reply declares ATYP 01 and then carries the nine
    characters of the text 127.0.0.1 where four raw bytes belong; the
    IPv4 reader run on what follows the header takes the first four
    characters for the address and the next two for the port.  The port
    itself is written as the two big-endian bytes D4 31. *)
Theorem reply_address_is_text_not_raw_bytes :
  let res := mkRes SUCCEEDED_connReply IP_V4_addr "127.0.0.1" 54321%Z [] [] in
  server.prepareProxy dial_any domain_request = Ok (Some loopback_remote, res, None) /\
  server.connReply res
  = [x05; x00; x00; x01] ++ list_byte_of_string "127.0.0.1" ++ [xd4; x31] /\
  length (AddrBytes res) = 9 /\
  PortBytes res = [xd4; x31] /\
  fst (readIPV4Addr (client_of [AddrBytes res ++ PortBytes res]))
  = Ok (list_byte_of_string "127.", list_byte_of_string "0.").
Proof. repeat split. Qed.

(** ** The greeting *)

(** The two bytes [replyMethodSelection] hands to the connection depend on
    the list it is given by membership only: they are 05 00 exactly when
    NO_AUTH (00) occurs in it, whatever its length, order or repetitions,
    and 05 FF exactly when it does not; the call succeeds exactly when both
    bytes were accepted.  (The list it is given is the buffer of the
    greeting, which need not be the list the client offered.) *)
Theorem method_selection_is_membership (methods : list byte) (c : Conn) :
  (methodSelectionReply methods
   = [SOCKS5H_VERSION; NO_AUTHENTICATION_REQUIRED_method]
   <-> In NO_AUTHENTICATION_REQUIRED_method methods) /\
  (methodSelectionReply methods
   = [SOCKS5H_VERSION; NO_ACCEPTABLE_METHODS_method]
   <-> ~ In NO_AUTHENTICATION_REQUIRED_method methods) /\
  exists n,
    log (snd (replyMethodSelection methods c))
    = log c ++ [EvWrite (methodSelectionReply methods) n] /\
    (fst (replyMethodSelection methods c) = Ok tt <-> n = 2).
Proof.
  split; [|split].
  - destruct (methodSelectionReply_cases methods) as [[H E]|[H E]]; rewrite E.
    + tauto.
    + split; [discriminate|contradiction].
  - destruct (methodSelectionReply_cases methods) as [[H E]|[H E]]; rewrite E.
    + split; [discriminate|contradiction].
    + tauto.
  - unfold replyMethodSelection. unfold_go.
    destruct (do_Write (methodSelectionReply methods) c) as [[n err] c1] eqn:W.
    destruct (do_Write_spec _ _ _ _ _ W) as (_ & L & _ & F).
    exists n. change (length (methodSelectionReply methods)) with 2 in F.
    destruct err as [e|]; simpl; (split; [exact L|]).
    + split; [discriminate|]. intros Hn. apply F in Hn. discriminate Hn.
    + split; [intros _; now apply F|reflexivity].
Qed.

(** C5 (the code departs from it): the client offers GSSAPI and
    USERNAME/PASSWORD only (05 02 01 02, the last byte in a segment of its
    own), so NO_AUTH is not in the offered set; yet the method selection
    both packages write is 05 00 and not 05 FF.  The reply follows the
    buffer of the greeting, whose second byte is still the zero it was made
    with, because the count of the Read of the methods is dropped. *)
Theorem split_greeting_selects_a_method_never_offered :
  stream split_greeting = [x05; x02] ++ [x01; x02] /\
  ~ In NO_AUTHENTICATION_REQUIRED_method [x01; x02] /\
  written (log (snd (server.handle_socks5_connection
                       dial_any [server.T_main] split_greeting)))
  = [SOCKS5H_VERSION; NO_AUTHENTICATION_REQUIRED_method] /\
  written (log (snd (handlers.Handle_SOCKS5H_Connection split_greeting)))
  = [SOCKS5H_VERSION; NO_AUTHENTICATION_REQUIRED_method] /\
  fst (readGreeting (client_of [[x02; x01]; [x02]])) = Ok [x01; x00].
Proof.
  split; [reflexivity|]. split; [|repeat split].
  simpl. intros [H|[H|[]]]; discriminate H.
Qed.

(** C7 (the code departs from it): the client offers GSSAPI and
    USERNAME/PASSWORD (05 02 01 02) and the last byte arrives in a segment
    of its own.  The Read of the methods returns one byte of the two asked
    for; its count is dropped, so the greeting is taken as read with the
    methods 01 00, the pad byte of the buffer standing in for the method
    that did not arrive.  Both packages then answer 05 00, selecting a
    method that was never offered, and read the late method byte as the
    start of the request. *)
Theorem short_greeting_read_goes_unnoticed :
  readGreeting (client_of [[x02; x01]; [x02]])
  = (Ok [x01; x00],
     mkConn [[x02]] io_EOF None [EvRead 1 [x02]; EvRead 2 [x01]]) /\
  server.handle_socks5_connection dial_any [server.T_main] split_greeting
  = (Err (errors_New "ver to aytp in socks5h request isn't of length 4"),
     mkConn [] io_EOF None
            [EvRead 1 [x05]; EvRead 1 [x02]; EvRead 2 [x01];
             EvWrite [x05; x00] 2; EvRead 4 [x02]; EvClose]) /\
  handlers.Handle_SOCKS5H_Connection split_greeting
  = (Err (errors_New "ver to aytp in socks5h request isn't of length 4"),
     mkConn [] io_EOF None
            [EvRead 1 [x05]; EvRead 1 [x02]; EvRead 2 [x01];
             EvWrite [x05; x00] 2; EvRead 4 [x02]; EvClose]).
Proof. repeat split. Qed.

(** C8: when the greeting offers no NO_AUTH method and the selection 05 FF
    has been written, the handler of either package goes on with the same
    connection: the very next call on it is the Read of the four header
    bytes of the connection request. *)
Theorem no_acceptable_methods_still_reads_request c methods c1 c2 :
  readGreeting c = (Ok methods, c1) ->
  ~ In NO_AUTHENTICATION_REQUIRED_method methods ->
  replyMethodSelection methods c1 = (Ok tt, c2) ->
  log c2 = log c1 ++ [EvWrite [SOCKS5H_VERSION; NO_ACCEPTABLE_METHODS_method] 2] /\
  pending c2 = pending c1 /\
  (forall dial sched,
      exists ev l, is_read_of 4 ev /\
                   log (snd (server.handleSOCKS5 dial sched c)) = log c2 ++ ev :: l) /\
  (exists ev l, is_read_of 4 ev /\
                log (snd (handlers.handleSOCKS5 c)) = log c2 ++ ev :: l).
Proof.
  intros G Hno S.
  destruct (replyMethodSelection_ok _ _ _ S) as [P L].
  destruct (methodSelectionReply_cases methods) as [[H _]|[_ E]]; [contradiction|].
  rewrite E in L.
  split; [exact L|]. split; [exact P|]. split.
  - intros dial sched. eapply server_reads_request_next; eassumption.
  - eapply handlers_reads_request_next; eassumption.
Qed.

Lemma no_acceptable_methods_still_reads_request_witness :
  log (snd (server.handleSOCKS5 dial_any [server.T_main] no_acceptable_greeting))
  = [EvRead 1 [x01]; EvRead 1 [x02]; EvWrite [x05; xff] 2]
    ++ EvRead 4 [x05; x01; x00; x03]
    :: [EvRead 1 [x01]; EvRead 1 [x61]; EvRead 2 [x00; x50];
        EvWrite ([x05; x00; x00; x01] ++ list_byte_of_string "127.0.0.1" ++ [xd4; x31]) 15] /\
  exists ev l,
    is_read_of 4 ev /\
    log (snd (handlers.handleSOCKS5 no_acceptable_greeting))
    = [EvRead 1 [x01]; EvRead 1 [x02]; EvWrite [x05; xff] 2] ++ ev :: l.
Proof.
  split; [reflexivity|].
  refine (proj2 (proj2 (proj2
    (no_acceptable_methods_still_reads_request
       no_acceptable_greeting [x02]
       (mkConn [[x05; x01; x00; x03; x01; x61; x00; x50]] io_EOF None
               [EvRead 1 [x01]; EvRead 1 [x02]])
       (mkConn [[x05; x01; x00; x03; x01; x61; x00; x50]] io_EOF None
               [EvRead 1 [x01]; EvRead 1 [x02]; EvWrite [x05; xff] 2])
       eq_refl _ eq_refl)))).
  simpl. intros [H|[]]. discriminate H.
Defined.

(** ** The request parser *)

(** C6: a request header that was read in full and whose version is not 05,
    whose reserved byte is not 00 or whose command lies outside 1..3 makes
    the parser of either package fail with one of the protocol errors; the
    parser writes nothing, the handlers return that error at once, and all
    the client has received by then is the method selection. *)
Theorem bad_request_header_is_a_protocol_error c ver cmd rsv atyp c1 :
  do_Read 4 c = (([ver; cmd; rsv; atyp], 4, None), c1) ->
  ver <> SOCKS5H_VERSION \/ rsv <> RSV \/ ~ cmd_in_range cmd ->
  exists e,
    error_kind e = ProtocolError /\
    server.readSockRequest c = (Err e, c1) /\
    handlers.readSockRequest c = (Err e, c1) /\
    written (log c1) = written (log c) /\
    forall c0 methods c0',
      readGreeting c0 = (Ok methods, c0') ->
      replyMethodSelection methods c0' = (Ok tt, c) ->
      (forall dial sched, server.handleSOCKS5 dial sched c0 = (Err e, c1)) /\
      handlers.handleSOCKS5 c0 = (Err e, c1) /\
      written (log c1) = written (log c0) ++ methodSelectionReply methods.
Proof.
  intros Rd Bad.
  destruct (bad_header_rejected _ _ _ _ _ _ Rd Bad) as (e & F & K).
  pose proof (do_Read_written _ _ _ _ Rd) as W.
  assert (Hs : server.readSockRequest c = (Err e, c1)).
  { unfold server.readSockRequest, bind. now rewrite F. }
  assert (Hh : handlers.readSockRequest c = (Err e, c1)).
  { unfold handlers.readSockRequest, bind. now rewrite F. }
  exists e. do 4 (split; [assumption|]).
  intros c0 methods c0' G S. split; [|split].
  - intros dial sched. unfold server.handleSOCKS5.
    unfold bind at 1. rewrite G. unfold bind at 1. rewrite S.
    unfold bind at 1. now rewrite Hs.
  - unfold handlers.handleSOCKS5.
    unfold bind at 1. rewrite G. unfold bind at 1. rewrite S.
    unfold bind at 1. now rewrite Hh.
  - destruct (replyMethodSelection_ok _ _ _ S) as [_ L].
    rewrite W, L, written_app, (readGreeting_written _ _ _ G).
    reflexivity.
Qed.

Lemma bad_request_header_is_a_protocol_error_witness :
  exists e,
    error_kind e = ProtocolError /\
    fst (server.readSockRequest bad_rsv_bytes) = Err e /\
    written (log (snd (server.readSockRequest bad_rsv_bytes))) = [].
Proof.
  destruct (bad_request_header_is_a_protocol_error
              bad_rsv_bytes x05 x01 x01 x01
              (mkConn [[x7f; x00; x00; x01; x00; x50]] io_EOF None
                      [EvRead 4 [x05; x01; x01; x01]])
              eq_refl
              (or_intror (or_introl (fun H : x01 = RSV =>
                 eq_ind x01 (fun b => match b with x01 => True | _ => False end)
                        I RSV H))))
    as (e & K & S & _ & W & _).
  exists e. rewrite S. simpl. split; [exact K|]. split; [reflexivity|exact W].
Defined.

(** C9: a connection request of address type DOMAINNAME whose length byte is
    00 is parsed without error and without panic.  The domain name is the
    empty byte string, so the host of host:port is empty and the dial
    address is the colon followed by the port. *)
Theorem empty_domain_name_is_accepted c cmd p0 p1 c1 c2 c3 :
  do_Read 4 c = (([SOCKS5H_VERSION; cmd; RSV; DOMAINNAME_addr], 4, None), c1) ->
  cmd_in_range cmd ->
  do_Read 1 c1 = (([x00], 1, None), c2) ->
  do_Read 2 (snd (do_Read 0 c2)) = (([p0; p1], 2, None), c3) ->
  exists req port,
    server.readSockRequest c = (Ok req, c3) /\
    handlers.readSockRequest c = (Ok tt, c3) /\
    AType req = DOMAINNAME_addr /\
    DstAddr req = [] /\
    AddrStr req = "" /\
    PortNum req = Ok port /\
    FullAddr req = Ok (":" +++ itoa port).
Proof.
  intros Rd4 Hcmd Rd1 Rd2.
  assert (D : readDomainNameAddr c1 = (Ok ([], [p0; p1]), c3)).
  { eapply readDomainNameAddr_run; [exact Rd1|reflexivity|exact Rd2]. }
  assert (F : readSockRequest_fields c
              = (Ok (SOCKS5H_VERSION, cmd, DOMAINNAME_addr, [], [p0; p1]), c3)).
  { unfold readSockRequest_fields. unfold bind at 1. unfold conn_Read at 1.
    rewrite Rd4. cbn [negb Nat.eqb nth].
    change (Byte.eqb SOCKS5H_VERSION SOCKS5H_VERSION) with true.
    change (Byte.eqb RSV RSV) with true. cbn [negb orb].
    apply cmd_check in Hcmd. rewrite Hcmd.
    change (Byte.eqb DOMAINNAME_addr IP_V4_addr) with false.
    change (Byte.eqb DOMAINNAME_addr DOMAINNAME_addr) with true.
    cbv iota. unfold bind. rewrite D. reflexivity. }
  destruct (BigEndian_Uint16_two p0 p1) as (port & HB & _ & _).
  exists (mkReq SOCKS5H_VERSION cmd DOMAINNAME_addr [] [p0; p1] "" 0%Z), port.
  split; [unfold server.readSockRequest, bind; now rewrite F|].
  split; [unfold handlers.readSockRequest, bind; now rewrite F|].
  do 3 (split; [reflexivity|]).
  unfold FullAddr, PortNum. cbn [req_port DstPort Z.ltb Z.compare].
  rewrite HB. split; reflexivity.
Qed.

Lemma empty_domain_name_is_accepted_witness :
  exists req,
    fst (server.readSockRequest empty_domain_bytes) = Ok req /\
    DstAddr req = [] /\ FullAddr req = Ok ":80".
Proof.
  destruct (empty_domain_name_is_accepted
              empty_domain_bytes x01 x00 x50
              (mkConn [[x00; x00; x50]] io_EOF None [EvRead 4 [x05; x01; x00; x03]])
              (mkConn [[x00; x50]] io_EOF None
                      [EvRead 4 [x05; x01; x00; x03]; EvRead 1 [x00]])
              (mkConn [] io_EOF None
                      [EvRead 4 [x05; x01; x00; x03]; EvRead 1 [x00];
                       EvRead 0 []; EvRead 2 [x00; x50]])
              eq_refl
              (conj (N.le_refl 1) (N.lt_le_incl 1 3 eq_refl))
              eq_refl eq_refl)
    as (req & port & S & _ & _ & A & _ & P & Fa).
  exists req. rewrite S. split; [reflexivity|]. split; [exact A|].
  rewrite Fa. f_equal.
  destruct req as [v cm at_ da dp ra rp]. simpl in A. subst da.
  injection S as _ _ _ <- <- <-. injection P as <-. reflexivity.
Defined.

(** C10: every request the parser returns without error carries a
    two-byte port and an address whose length is the one its type calls for:
    4 for IPv4, 16 for IPv6, and for a domain name the value of the length
    byte that was read before it.  Hence its port number decodes, to a value
    below 65536, and its host:port string is built, neither with a panic. *)
Theorem parsed_request_is_well_formed c req c' :
  server.readSockRequest c = (Ok req, c') ->
  length (DstPort req) = 2 /\
  ((AType req = IP_V4_addr /\ length (DstAddr req) = 4) \/
   (AType req = IP_V6_addr /\ length (DstAddr req) = 16) \/
   (AType req = DOMAINNAME_addr /\
    exists hdr c1 l c2,
      do_Read 4 c = ((hdr, 4, None), c1) /\
      do_Read 1 c1 = (([l], 1, None), c2) /\
      length (DstAddr req) = Byte.to_nat l)) /\
  (exists port, PortNum req = Ok port /\ (0 <= port < 65536)%Z) /\
  (exists address, FullAddr req = Ok address).
Proof.
  intros Hparse.
  destruct (server_readSockRequest_ok _ _ _ Hparse) as (Hf & Ha & Hp).
  destruct (readSockRequest_fields_ok _ _ _ _ _ _ _ Hf)
    as (rsv & c1 & Rd & _ & _ & _ & Hrd).
  assert (Shape :
    length (DstPort req) = 2 /\
    ((AType req = IP_V4_addr /\ length (DstAddr req) = 4) \/
     (AType req = IP_V6_addr /\ length (DstAddr req) = 16) \/
     (AType req = DOMAINNAME_addr /\
      exists hdr c1 l c2,
        do_Read 4 c = ((hdr, 4, None), c1) /\
        do_Read 1 c1 = (([l], 1, None), c2) /\
        length (DstAddr req) = Byte.to_nat l))).
  { destruct Hrd as [[E H]|[[E H]|[E H]]].
    - destruct (readIPV4Addr_ok _ _ _ _ H) as (c2 & R1 & R2).
      destruct (do_Read_full _ _ _ _ _ R1 eq_refl) as [L1 _].
      destruct (do_Read_full _ _ _ _ _ R2 eq_refl) as [L2 _]. auto.
    - destruct (readDomainNameAddr_ok _ _ _ _ H) as (l & c2 & c3 & R1 & R2 & R3).
      destruct (do_Read_full _ _ _ _ _ R2 eq_refl) as [L2 _].
      destruct (do_Read_full _ _ _ _ _ R3 eq_refl) as [L3 _].
      split; [exact L3|]. right. right. split; [exact E|]. eauto 8.
    - destruct (readIPV6Addr_ok _ _ _ _ H) as (c2 & R1 & R2).
      destruct (do_Read_full _ _ _ _ _ R1 eq_refl) as [L1 _].
      destruct (do_Read_full _ _ _ _ _ R2 eq_refl) as [L2 _]. auto. }
  destruct Shape as [L Hlen].
  destruct (PortNum_parsed req Hp L) as (port & HP & Hrange).
  split; [exact L|]. split; [exact Hlen|]. split; [eauto|].
  unfold FullAddr. rewrite HP. eauto.
Qed.

Lemma parsed_request_is_well_formed_witness :
  length (DstPort domain_request) = 2 /\
  (exists port, PortNum domain_request = Ok port /\ (0 <= port < 65536)%Z) /\
  (exists address, FullAddr domain_request = Ok address).
Proof.
  destruct (parsed_request_is_well_formed
              domain_request_bytes domain_request
              (mkConn [] io_EOF None
                      [EvRead 4 [x05; x01; x00; x03]; EvRead 1 [x01];
                       EvRead 1 [x61]; EvRead 2 [x00; x50]])
              eq_refl)
    as (L & _ & P & Fa).
  split; [exact L|]. split; [exact P|exact Fa].
Defined.

(** * Further properties of the code *)

(** ** Reads against the stream *)

Lemma take_segment_stream n p got p' :
  take_segment n p = Some (got, p') -> concat p = got ++ concat p'.
Proof.
  induction p as [|seg p IH]; simpl; [discriminate|].
  destruct seg as [|b seg]; [exact IH|].
  intros H. injection H as <- <-.
  set (s := b :: seg).
  rewrite <- (firstn_skipn n s) at 1. rewrite <- app_assoc. f_equal.
  destruct (skipn n s); reflexivity.
Qed.

Lemma take_segment_none n p : take_segment n p = None -> concat p = [].
Proof.
  induction p as [|seg p IH]; simpl; [reflexivity|].
  destruct seg as [|b seg]; [exact IH|discriminate].
Qed.

(** A Read without error takes its bytes off the front of the stream. *)
Lemma do_Read_stream n c buf k c' :
  do_Read n c = ((buf, k, None), c') ->
  exists got,
    buf = fill n got /\ k = length got /\ length got <= n /\
    stream c = got ++ stream c' /\
    log c' = log c ++ [EvRead n got] /\
    rd_end c' = rd_end c /\ wr_room c' = wr_room c.
Proof.
  unfold do_Read, stream. destruct n as [|n].
  - intros H. injection H as <- <- <-. exists []. simpl. repeat split; auto.
  - destruct (take_segment (S n) (pending c)) as [[got p']|] eqn:E; [|discriminate].
    intros H. injection H as <- <- <-. exists got. simpl.
    repeat split; auto.
    + eapply take_segment_length, E.
    + eapply take_segment_stream, E.
Qed.

(** A Read reports an error only at the end of the stream, and the error
    is the one the connection ends with. *)
Lemma do_Read_error n c buf k e c' :
  do_Read n c = ((buf, k, Some e), c') ->
  e = rd_end c /\ k = 0 /\ stream c = [] /\ stream c' = [] /\
  log c' = log c ++ [EvReadErr n e] /\
  rd_end c' = rd_end c /\ wr_room c' = wr_room c.
Proof.
  unfold do_Read, stream. destruct n as [|n]; [discriminate|].
  destruct (take_segment (S n) (pending c)) as [[got p']|] eqn:E; [discriminate|].
  intros H. injection H as <- <- <- <-. simpl. repeat split; auto.
  eapply take_segment_none, E.
Qed.

Lemma do_Read_full_stream n c buf c' :
  do_Read n c = ((buf, n, None), c') ->
  length buf = n /\ stream c = buf ++ stream c' /\
  log c' = log c ++ [EvRead n buf] /\
  rd_end c' = rd_end c /\ wr_room c' = wr_room c.
Proof.
  intros H. destruct (do_Read_stream _ _ _ _ _ H) as (got & -> & K & _ & S & L & R).
  rewrite fill_full by (symmetry; exact K). rewrite <- K. auto.
Qed.

(** ** The request parser against the wire *)

(** The Reads of a successful parse, one buffer each: the header, the length
    byte of a domain name, the address, the port.  Each filled its buffer,
    and together they are the front of the stream. *)
Lemma readSockRequest_trace c req c' :
  server.readSockRequest c = (Ok req, c') ->
  exists len_field,
    let reads := [[Version req; Cmd req; RSV; AType req]] ++ map (fun l => [l]) len_field
                 ++ [DstAddr req; DstPort req] in
    log c' = log c ++ map (fun b => EvRead (length b) b) reads /\
    stream c = concat reads ++ stream c' /\
    Version req = SOCKS5H_VERSION /\ cmd_in_range (Cmd req) /\
    length (DstPort req) = 2 /\
    ((AType req = IP_V4_addr /\ len_field = [] /\ length (DstAddr req) = 4) \/
     (AType req = IP_V6_addr /\ len_field = [] /\ length (DstAddr req) = 16) \/
     (AType req = DOMAINNAME_addr /\
      exists l, len_field = [l] /\ Byte.to_nat l = length (DstAddr req))).
Proof.
  intros Hparse.
  destruct (server_readSockRequest_ok _ _ _ Hparse) as (Hf & _ & _).
  destruct (readSockRequest_fields_ok _ _ _ _ _ _ _ Hf)
    as (rsv & c1 & Rd & V & R & C & Hrd). subst rsv.
  destruct (do_Read_full_stream _ _ _ _ Rd) as (_ & S0 & L0 & _).
  destruct Hrd as [[E H]|[[E H]|[E H]]].
  - destruct (readIPV4Addr_ok _ _ _ _ H) as (c2 & R1 & R2).
    destruct (do_Read_full_stream _ _ _ _ R1) as (N1 & S1 & L1 & _).
    destruct (do_Read_full_stream _ _ _ _ R2) as (N2 & S2 & L2 & _).
    exists []. cbn zeta. cbn [map app concat length].
    rewrite L2, L1, L0, S0, S1, S2, N1, N2, <- !app_assoc. cbn [app].
    do 5 (split; [first [reflexivity|assumption]|]). auto.
  - destruct (readDomainNameAddr_ok _ _ _ _ H) as (l & c2 & c3 & R1 & R2 & R3).
    destruct (do_Read_full_stream _ _ _ _ R1) as (N1 & S1 & L1 & _).
    destruct (do_Read_full_stream _ _ _ _ R2) as (N2 & S2 & L2 & _).
    destruct (do_Read_full_stream _ _ _ _ R3) as (N3 & S3 & L3 & _).
    exists [l]. cbn zeta. cbn [map app concat length].
    rewrite L3, L2, L1, L0, S0, S1, S2, S3, N2, N3, <- !app_assoc. cbn [app].
    do 5 (split; [first [reflexivity|assumption]|]).
    right. right. split; [exact E|]. exists l. auto.
  - destruct (readIPV6Addr_ok _ _ _ _ H) as (c2 & R1 & R2).
    destruct (do_Read_full_stream _ _ _ _ R1) as (N1 & S1 & L1 & _).
    destruct (do_Read_full_stream _ _ _ _ R2) as (N2 & S2 & L2 & _).
    exists []. cbn zeta. cbn [map app concat length].
    rewrite L2, L1, L0, S0, S1, S2, N1, N2, <- !app_assoc. cbn [app].
    do 5 (split; [first [reflexivity|assumption]|]). auto.
Qed.

Lemma parsed_request_writes_nothing c req c' :
  server.readSockRequest c = (Ok req, c') ->
  written (log c') = written (log c).
Proof.
  intros H.
  destruct (readSockRequest_trace _ _ _ H) as (lf & L & _).
  cbv zeta in L. rewrite L, written_app.
  assert (W : forall reads, written (map (fun b => EvRead (length b) b) reads) = []).
  { induction reads; simpl; auto. }
  rewrite W. apply app_nil_r.
Qed.

(** X1: The parser takes exactly the bytes of one request off the stream: what
    it returns, laid out as on the wire, followed by what it has left
    unread, is the stream it started from. *)
Theorem parsed_request_is_the_front_of_the_stream c req c' :
  server.readSockRequest c = (Ok req, c') ->
  exists len_field,
    stream c = [Version req; Cmd req; RSV; AType req] ++ len_field
               ++ DstAddr req ++ DstPort req ++ stream c' /\
    ((AType req = DOMAINNAME_addr /\
      exists l, len_field = [l] /\ Byte.to_nat l = length (DstAddr req)) \/
     (AType req <> DOMAINNAME_addr /\ len_field = [])).
Proof.
  intros H.
  destruct (readSockRequest_trace _ _ _ H) as (lf & _ & S & _ & _ & _ & Hc).
  exists lf. split.
  - rewrite S. destruct Hc as [(_ & -> & _)|[(_ & -> & _)|(_ & l & -> & _)]];
      cbn [map app concat]; rewrite <- ?app_assoc, ?app_nil_r; reflexivity.
  - destruct Hc as [(E & -> & _)|[(E & -> & _)|(E & l & -> & N)]].
    + right. split; [rewrite E; discriminate|reflexivity].
    + right. split; [rewrite E; discriminate|reflexivity].
    + left. split; [exact E|]. exists l. auto.
Qed.

Lemma parsed_request_is_the_front_of_the_stream_witness :
  exists len_field,
    stream domain_request_bytes
    = [x05; x01; x00; x03] ++ len_field ++ [x61] ++ [x00; x50] ++ [] /\
    len_field = [x01].
Proof.
  destruct (parsed_request_is_the_front_of_the_stream
              domain_request_bytes domain_request
              (mkConn [] io_EOF None
                      [EvRead 4 [x05; x01; x00; x03]; EvRead 1 [x01];
                       EvRead 1 [x61]; EvRead 2 [x00; x50]])
              eq_refl)
    as (lf & S & [(_ & l & E & _)|(A & _)]).
  - exists lf. split; [exact S|].
    subst lf. apply (f_equal (fun s => nth 4 s x00)) in S. simpl in S.
    now rewrite <- S.
  - exfalso. apply A. reflexivity.
Defined.

(** X2: A request is returned only after every Read made for it has filled its
    buffer: the log gains nothing but full Reads, and no write. *)
Theorem request_parser_proceeds_only_on_full_reads c req c' :
  server.readSockRequest c = (Ok req, c') ->
  exists l, log c' = log c ++ l /\ Forall full_read l /\
            written (log c') = written (log c).
Proof.
  intros H.
  destruct (readSockRequest_trace _ _ _ H) as (lf & L & _).
  cbv zeta in L. eexists. split; [exact L|].
  assert (F : forall reads, Forall full_read (map (fun b => EvRead (length b) b) reads)).
  { induction reads; simpl; constructor; simpl; auto. }
  split; [apply F|].
  rewrite L, written_app.
  assert (W : forall reads, written (map (fun b => EvRead (length b) b) reads) = []).
  { induction reads; simpl; auto. }
  rewrite W. apply app_nil_r.
Qed.

Lemma request_parser_proceeds_only_on_full_reads_witness :
  exists l,
    [EvRead 4 [x05; x01; x00; x03]; EvRead 1 [x01]; EvRead 1 [x61];
     EvRead 2 [x00; x50]] = log domain_request_bytes ++ l /\
    Forall full_read l.
Proof.
  destruct (request_parser_proceeds_only_on_full_reads
              domain_request_bytes domain_request
              (mkConn [] io_EOF None
                      [EvRead 4 [x05; x01; x00; x03]; EvRead 1 [x01];
                       EvRead 1 [x61]; EvRead 2 [x00; x50]])
              eq_refl)
    as (l & L & F & _).
  exists l. split; [exact L|exact F].
Defined.

(** A Read for exactly the bytes at the head of the first segment. *)
Lemma do_Read_front a b p e w l :
  a <> [] ->
  do_Read (length a) (mkConn ((a ++ b) :: p) e w l)
  = ((a, length a, None),
     mkConn (match b with [] => p | rest => rest :: p end) e w
            (l ++ [EvRead (length a) a])).
Proof.
  intros Ha. unfold do_Read.
  destruct (length a) as [|n] eqn:E.
  - destruct a; [contradiction|discriminate E].
  - rewrite <- E. cbn [pending take_segment rd_end wr_room log].
    destruct (a ++ b) as [|y s] eqn:E2.
    + apply app_eq_nil in E2. destruct E2; contradiction.
    + rewrite <- E2.
      rewrite firstn_app, skipn_app, firstn_all, skipn_all, Nat.sub_diag.
      cbn [firstn skipn app]. rewrite app_nil_r.
      rewrite fill_full by reflexivity. destruct b; reflexivity.
Qed.

Lemma do_Read_head a b p e w l :
  a <> [] -> b <> [] ->
  do_Read (length a) (mkConn ((a ++ b) :: p) e w l)
  = ((a, length a, None), mkConn (b :: p) e w (l ++ [EvRead (length a) a])).
Proof.
  intros Ha Hb. rewrite do_Read_front by exact Ha.
  destruct b; [contradiction|reflexivity].
Qed.

Lemma do_Read_last a b p e w l :
  a <> [] ->
  exists p',
    do_Read (length a) (mkConn ((a ++ b) :: p) e w l)
    = ((a, length a, None), mkConn p' e w (l ++ [EvRead (length a) a])) /\
    concat p' = b ++ concat p.
Proof.
  intros Ha. rewrite do_Read_front by exact Ha.
  eexists. split; [reflexivity|]. destruct b; reflexivity.
Qed.

Lemma readSockRequest_fields_run c cmd atyp addr port c1 c' :
  do_Read 4 c = (([SOCKS5H_VERSION; cmd; RSV; atyp], 4, None), c1) ->
  cmd_in_range cmd ->
  (atyp = IP_V4_addr /\ readIPV4Addr c1 = (Ok (addr, port), c')) \/
  (atyp = DOMAINNAME_addr /\ readDomainNameAddr c1 = (Ok (addr, port), c')) \/
  (atyp = IP_V6_addr /\ readIPV6Addr c1 = (Ok (addr, port), c')) ->
  readSockRequest_fields c = (Ok (SOCKS5H_VERSION, cmd, atyp, addr, port), c').
Proof.
  intros Rd Hcmd Hrd.
  unfold readSockRequest_fields. unfold bind at 1. unfold conn_Read at 1.
  rewrite Rd. cbn [negb Nat.eqb nth].
  change (Byte.eqb SOCKS5H_VERSION SOCKS5H_VERSION) with true.
  change (Byte.eqb RSV RSV) with true. cbn [negb orb].
  apply cmd_check in Hcmd. rewrite Hcmd. unfold bind.
  destruct Hrd as [[-> H]|[[-> H]|[-> H]]].
  - change (Byte.eqb IP_V4_addr IP_V4_addr) with true. cbv iota. now rewrite H.
  - change (Byte.eqb DOMAINNAME_addr IP_V4_addr) with false.
    change (Byte.eqb DOMAINNAME_addr DOMAINNAME_addr) with true.
    cbv iota. now rewrite H.
  - change (Byte.eqb IP_V6_addr IP_V4_addr) with false.
    change (Byte.eqb IP_V6_addr DOMAINNAME_addr) with false.
    change (Byte.eqb IP_V6_addr IP_V6_addr) with true.
    cbv iota. now rewrite H.
Qed.

Lemma do_Read_head_n n a b p e w l :
  n = length a -> a <> [] -> b <> [] ->
  do_Read n (mkConn ((a ++ b) :: p) e w l)
  = ((a, n, None), mkConn (b :: p) e w (l ++ [EvRead n a])).
Proof. intros ->. apply do_Read_head. Qed.

Lemma do_Read_last_n n a b p e w l :
  n = length a -> a <> [] ->
  exists p',
    do_Read n (mkConn ((a ++ b) :: p) e w l)
    = ((a, n, None), mkConn p' e w (l ++ [EvRead n a])) /\
    concat p' = b ++ concat p.
Proof. intros ->. apply do_Read_last. Qed.

(** X3: Round trip of the request codec: a well-formed request that lies at the
    head of the next segment is parsed into exactly its fields, and the
    bytes behind it stay on the stream. *)
Theorem request_on_the_wire_is_parsed cmd atyp len_field addr p0 p1 rest more e w l :
  cmd_in_range cmd ->
  (atyp = IP_V4_addr /\ length addr = 4 /\ len_field = []) \/
  (atyp = IP_V6_addr /\ length addr = 16 /\ len_field = []) \/
  (atyp = DOMAINNAME_addr /\
   exists n, len_field = [n] /\ Byte.to_nat n = length addr) ->
  exists c',
    server.readSockRequest
      (mkConn (([SOCKS5H_VERSION; cmd; RSV; atyp] ++ len_field ++ addr
                ++ [p0; p1] ++ rest) :: more) e w l)
    = (Ok (mkReq SOCKS5H_VERSION cmd atyp addr [p0; p1] "" 0%Z), c') /\
    stream c' = rest ++ concat more /\
    rd_end c' = e /\ wr_room c' = w.
Proof.
  intros Hcmd Hshape.
  set (hdr := [SOCKS5H_VERSION; cmd; RSV; atyp]).
  assert (Hdone : forall c1 c',
    do_Read 4 (mkConn ((hdr ++ len_field ++ addr ++ [p0; p1] ++ rest) :: more) e w l)
    = ((hdr, 4, None), c1) ->
    ((atyp = IP_V4_addr /\ readIPV4Addr c1 = (Ok (addr, [p0; p1]), c')) \/
     (atyp = DOMAINNAME_addr /\ readDomainNameAddr c1 = (Ok (addr, [p0; p1]), c')) \/
     (atyp = IP_V6_addr /\ readIPV6Addr c1 = (Ok (addr, [p0; p1]), c'))) ->
    server.readSockRequest
      (mkConn ((hdr ++ len_field ++ addr ++ [p0; p1] ++ rest) :: more) e w l)
    = (Ok (mkReq SOCKS5H_VERSION cmd atyp addr [p0; p1] "" 0%Z), c')).
  { intros c1 c' Rd Hrd. unfold server.readSockRequest, bind.
    now rewrite (readSockRequest_fields_run _ _ _ _ _ _ _ Rd Hcmd Hrd). }
  assert (Hhdr : forall tail, tail <> [] ->
    do_Read 4 (mkConn ((hdr ++ tail) :: more) e w l)
    = ((hdr, 4, None), mkConn (tail :: more) e w (l ++ [EvRead 4 hdr]))).
  { intros tail Ht. apply do_Read_head_n; [reflexivity|discriminate|exact Ht]. }
  assert (Hne : forall x : list byte, x ++ [p0; p1] ++ rest <> []).
  { intros x E. apply app_eq_nil in E. destruct E as [_ E]. discriminate E. }
  destruct Hshape as [(Eat & La & ->)|[(Eat & La & ->)|(Eat & n & -> & Ln)]].
  - assert (Ha : addr <> []) by (intros ->; discriminate La).
    destruct (do_Read_last_n 2 [p0; p1] rest more e w
                ((l ++ [EvRead 4 hdr]) ++ [EvRead 4 addr]) eq_refl)
      as (p' & Rp & Cp); [discriminate|].
    match type of Rp with _ = (_, ?c) => exists c end.
    split; [|split; [exact Cp|split; reflexivity]].
    eapply Hdone; [apply (Hhdr (addr ++ [p0; p1] ++ rest)), Hne|].
    left. split; [exact Eat|].
    eapply readIPV4Addr_run; [|exact Rp].
    apply do_Read_head_n; [now symmetry|exact Ha|discriminate].
  - assert (Ha : addr <> []) by (intros ->; discriminate La).
    destruct (do_Read_last_n 2 [p0; p1] rest more e w
                ((l ++ [EvRead 4 hdr]) ++ [EvRead 16 addr]) eq_refl)
      as (p' & Rp & Cp); [discriminate|].
    match type of Rp with _ = (_, ?c) => exists c end.
    split; [|split; [exact Cp|split; reflexivity]].
    eapply Hdone; [apply (Hhdr (addr ++ [p0; p1] ++ rest)), Hne|].
    right. right. split; [exact Eat|].
    eapply readIPV6Addr_run; [|exact Rp].
    apply do_Read_head_n; [now symmetry|exact Ha|discriminate].
  - destruct (do_Read_last_n 2 [p0; p1] rest more e w
                (((l ++ [EvRead 4 hdr]) ++ [EvRead 1 [n]])
                 ++ [EvRead (Byte.to_nat n) addr]) eq_refl)
      as (p' & Rp & Cp); [discriminate|].
    match type of Rp with _ = (_, ?c) => exists c end.
    split; [|split; [exact Cp|split; reflexivity]].
    eapply Hdone; [apply (Hhdr ([n] ++ addr ++ [p0; p1] ++ rest)); discriminate|].
    right. left. split; [exact Eat|].
    eapply readDomainNameAddr_run; [| |exact Rp].
    + apply (do_Read_head_n 1 [n] (addr ++ [p0; p1] ++ rest));
        [reflexivity|discriminate|apply Hne].
    + destruct addr as [|x addr].
      * simpl in Ln. rewrite Ln. reflexivity.
      * apply do_Read_head_n; [exact Ln|discriminate|discriminate].
Qed.

Lemma request_on_the_wire_is_parsed_witness :
  fst (server.readSockRequest domain_request_bytes) = Ok domain_request.
Proof.
  destruct (request_on_the_wire_is_parsed
              x01 x03 [x01] [x61] x00 x50 [] [] io_EOF None []
              (conj (N.le_refl 1) (N.lt_le_incl 1 3 eq_refl))
              (or_intror (or_intror
                 (conj eq_refl (ex_intro _ x01 (conj eq_refl eq_refl))))))
    as (c' & H & _).
  change (server.readSockRequest domain_request_bytes = (Ok domain_request, c')) in H.
  now rewrite H.
Defined.

(** ** The relay *)

Lemma firstn_fill n got : firstn (length got) (fill n got) = got.
Proof.
  unfold fill. rewrite firstn_app, firstn_all, Nat.sub_diag. simpl.
  apply app_nil_r.
Qed.

(** One turn of [io.Copy]: some front [d] of the source's stream reaches
    the destination; [lost] was read but not accepted.  Nothing is lost
    unless the turn ends the copy with an error, and a copy that ends
    without error has drained the source. *)
Lemma io_Copy_turn_relay dst src r dst' src' :
  server.io_Copy_turn dst src = (r, dst', src') ->
  pending dst' = pending dst /\
  written (log src') = written (log src) /\
  exists d lost,
    stream src = d ++ lost ++ stream src' /\
    written (log dst') = written (log dst) ++ d /\
    (r = None \/ r = Some None -> lost = []) /\
    (r = Some None -> stream src' = []).
Proof.
  unfold server.io_Copy_turn. generalize server.copy_buffer_size as N. intros N.
  destruct (do_Read N src) as [[[buf nr] er] src1] eqn:Rd.
  pose proof (do_Read_written _ _ _ _ Rd) as Wsrc.
  destruct er as [e|].
  - destruct (do_Read_error _ _ _ _ _ _ Rd) as (_ & -> & S0 & S1 & _).
    cbn [Nat.ltb Nat.leb].
    assert (G : forall r0 : option (option error), pending dst = pending dst /\
      written (log src1) = written (log src) /\
      exists d lost, stream src = d ++ lost ++ stream src1 /\
        written (log dst) = written (log dst) ++ d /\
        (r0 = None \/ r0 = Some None -> lost = []) /\
        (r0 = Some None -> stream src1 = [])).
    { intros r0. do 2 (split; [auto|]). exists [], []. rewrite S0, S1. simpl. rewrite app_nil_r. auto. }
    destruct e; intros H; injection H as <- <- <-; apply G.
  - destruct (do_Read_stream _ _ _ _ _ Rd) as (got & -> & -> & _ & S & _).
    destruct (0 <? length got) eqn:Z.
    + rewrite firstn_fill.
      destruct (do_Write got dst) as [[nw ew] dst1] eqn:Wr.
      destruct (do_Write_spec _ _ _ _ _ Wr) as (P & L & Hle & F).
      assert (Wd : written (log dst1) = written (log dst) ++ firstn nw got).
      { rewrite L, written_app. simpl. now rewrite app_nil_r. }
      destruct ew as [e|].
      * intros H. injection H as <- <- <-. do 2 (split; [auto|]).
        exists (firstn nw got), (skipn nw got).
        rewrite app_assoc, firstn_skipn. repeat split; auto.
        -- intros [H|H]; discriminate H.
        -- intros H; discriminate H.
      * assert (nw = length got) by now apply F. subst nw.
        rewrite Nat.eqb_refl. intros H. injection H as <- <- <-.
        do 2 (split; [auto|]). exists got, [].
        rewrite firstn_all in Wd. repeat split; auto. intros H; discriminate H.
    + intros H. injection H as <- <- <-. do 2 (split; [auto|]).
      apply Nat.ltb_ge in Z. assert (got = []) by (destruct got; [auto|simpl in Z; lia]).
      subst got. exists [], []. rewrite app_nil_r. repeat split; auto.
      intros H; discriminate H.
Qed.

Lemma go_step_keeps_main_direction t :
  stream (server.tn_remote (server.go_step t)) = stream (server.tn_remote t) /\
  written (log (server.tn_client (server.go_step t)))
  = written (log (server.tn_client t)).
Proof.
  unfold server.go_step. destruct (server.go_running t); [|auto].
  destruct (server.io_Copy_turn (server.tn_remote t) (server.tn_client t))
    as [[r remote'] client'] eqn:E.
  destruct (io_Copy_turn_relay _ _ _ _ _ E) as (P & W & _).
  unfold stream. destruct r; simpl; rewrite P, W; auto.
Qed.

Lemma main_step_keeps_go_direction t b t' :
  server.main_step t = (b, t') ->
  stream (server.tn_client t') = stream (server.tn_client t) /\
  written (log (server.tn_remote t')) = written (log (server.tn_remote t)) /\
  server.go_running t' = server.go_running t /\
  server.writeErr t' = server.writeErr t.
Proof.
  unfold server.main_step.
  destruct (server.io_Copy_turn (server.tn_client t) (server.tn_remote t))
    as [[r client'] remote'] eqn:E.
  destruct (io_Copy_turn_relay _ _ _ _ _ E) as (P & W & _).
  unfold stream. destruct r; intros H; injection H as _ <-; simpl; rewrite P, W; auto.
Qed.

(** The caller's direction under any schedule: what the client has been
    sent is a front of what the remote delivered, and all of it when the
    copy ended without error. *)
Lemma tunnel_run_main_direction sched : forall t t',
  server.tunnel_run sched t = Some t' ->
  exists d lost,
    stream (server.tn_remote t) = d ++ lost ++ stream (server.tn_remote t') /\
    written (log (server.tn_client t')) = written (log (server.tn_client t)) ++ d /\
    (server.readErr t' = None -> lost = [] /\ stream (server.tn_remote t') = []).
Proof.
  induction sched as [|who sched IH]; intros t t'; simpl; [discriminate|].
  destruct who.
  - destruct (server.main_step t) as [b t1] eqn:E. revert E.
    unfold server.main_step.
    destruct (server.io_Copy_turn (server.tn_client t) (server.tn_remote t))
      as [[r client'] remote'] eqn:T.
    destruct (io_Copy_turn_relay _ _ _ _ _ T) as (_ & _ & d & lost & S & W & Hl & Hs).
    destruct r as [r0|]; intros E; injection E as <- <-.
    + intros H. injection H as <-. simpl. exists d, lost.
      split; [exact S|]. split; [exact W|].
      intros ->. split; auto.
    + intros H. destruct (IH _ _ H) as (d2 & lost2 & S2 & W2 & H2). simpl in S2, W2.
      rewrite (Hl (or_introl eq_refl)) in S. simpl in S.
      exists (d ++ d2), lost2. split; [|split; [|exact H2]].
      * rewrite S, S2, <- app_assoc. reflexivity.
      * rewrite W2, W, <- app_assoc. reflexivity.
  - intros H. destruct (IH _ _ H) as (d & lost & S & W & H2).
    destruct (go_step_keeps_main_direction t) as [Sg Wg].
    exists d, lost. rewrite <- Sg, <- Wg. auto.
Qed.

(** Once the goroutine's copy has ended, its direction stands still. *)
Lemma tunnel_run_after_go_end sched : forall t t',
  server.go_running t = false ->
  server.tunnel_run sched t = Some t' ->
  stream (server.tn_client t') = stream (server.tn_client t) /\
  written (log (server.tn_remote t')) = written (log (server.tn_remote t)) /\
  server.go_running t' = false /\
  server.writeErr t' = server.writeErr t.
Proof.
  induction sched as [|who sched IH]; intros t t' G; simpl; [discriminate|].
  destruct who.
  - destruct (server.main_step t) as [b t1] eqn:E.
    destruct (main_step_keeps_go_direction _ _ _ E) as (Sm & Wm & Gm & Em).
    destruct b; intros H.
    + injection H as <-. rewrite Gm. auto.
    + rewrite G in Gm. destruct (IH _ _ Gm H) as (S1 & W1 & G1 & E1).
      rewrite S1, W1, E1. auto.
  - unfold server.go_step. rewrite G. apply IH, G.
Qed.

(** The goroutine's direction under any schedule: what the remote has been
    sent is a front of what the client delivered, and all of it when the
    goroutine's copy has ended without error. *)
Lemma tunnel_run_go_direction sched : forall t t',
  server.tunnel_run sched t = Some t' ->
  server.go_running t = true ->
  exists d lost,
    stream (server.tn_client t) = d ++ lost ++ stream (server.tn_client t') /\
    written (log (server.tn_remote t')) = written (log (server.tn_remote t)) ++ d /\
    (server.go_running t' = false -> server.writeErr t' = None ->
     lost = [] /\ stream (server.tn_client t') = []).
Proof.
  induction sched as [|who sched IH]; intros t t'; simpl; [discriminate|].
  destruct who.
  - destruct (server.main_step t) as [b t1] eqn:E.
    destruct (main_step_keeps_go_direction _ _ _ E) as (Sm & Wm & Gm & Em).
    destruct b; intros H G.
    + injection H as <-. exists [], []. rewrite Sm, Wm, Gm, app_nil_r.
      split; [reflexivity|]. split; [reflexivity|].
      intros A. rewrite G in A. discriminate A.
    + rewrite <- Gm in G. destruct (IH _ _ H G) as (d & lost & S & W & H2).
      exists d, lost. rewrite <- Sm, <- Wm. auto.
  - intros H G. revert H. unfold server.go_step. rewrite G.
    destruct (server.io_Copy_turn (server.tn_remote t) (server.tn_client t))
      as [[r remote'] client'] eqn:T.
    destruct (io_Copy_turn_relay _ _ _ _ _ T) as (_ & _ & d & lost & S & W & Hl & Hs).
    destruct r as [r0|]; intros H.
    + apply tunnel_run_after_go_end in H; [|reflexivity].
      destruct H as (S1 & W1 & G1 & E1).
      simpl in S1, W1, E1.
      exists d, lost. rewrite S1, W1, E1. split; [exact S|]. split; [exact W|].
      intros _ ->. split; auto.
    + destruct (IH _ _ H eq_refl) as (d2 & lost2 & S2 & W2 & H2).
      simpl in S2, W2.
      rewrite (Hl (or_introl eq_refl)) in S. simpl in S.
      exists (d ++ d2), lost2. split; [|split; [|exact H2]].
      * rewrite S, S2, <- app_assoc. reflexivity.
      * rewrite W2, W, <- app_assoc. reflexivity.
Qed.

(** X14: Whatever the schedule, when [tunnel] returns the client has been sent a
    front of what the remote delivered, byte for byte and in order; and when
    the returned [readErr] is nil the client has been sent all of it and
    the remote's stream is drained. *)
Theorem tunnel_relays_remote_to_client sched client remote t :
  server.tunnel sched client remote = Some t ->
  (exists d rest,
      stream remote = d ++ rest /\
      written (log (server.tn_client t)) = written (log client) ++ d) /\
  (server.readErr t = None ->
   written (log (server.tn_client t)) = written (log client) ++ stream remote /\
   stream (server.tn_remote t) = []).
Proof.
  unfold server.tunnel. intros H.
  destruct (tunnel_run_main_direction _ _ _ H) as (d & lost & S & W & Hc).
  simpl in S, W. split.
  - exists d, (lost ++ stream (server.tn_remote t)). auto.
  - intros E. destruct (Hc E) as [-> Z]. rewrite Z, app_nil_r in S.
    rewrite S. auto.
Qed.

Lemma tunnel_relays_remote_to_client_witness :
  exists t,
    server.tunnel go_first talking_client chatty_remote = Some t /\
    written (log (server.tn_client t)) = [x48; x49].
Proof.
  eexists. split; [reflexivity|].
  exact (proj1 (proj2 (tunnel_relays_remote_to_client
                         go_first talking_client chatty_remote _ eq_refl)
                      eq_refl)).
Defined.

(** X15: The other direction: the remote has been sent a front of what the
    client delivered after the handshake; and when the goroutine's copy has
    ended by the time [tunnel] returns and [writeErr] is nil, the remote has
    been sent all of it. *)
Theorem tunnel_relays_client_to_remote sched client remote t :
  server.tunnel sched client remote = Some t ->
  (exists d rest,
      stream client = d ++ rest /\
      written (log (server.tn_remote t)) = written (log remote) ++ d) /\
  (server.go_running t = false -> server.writeErr t = None ->
   written (log (server.tn_remote t)) = written (log remote) ++ stream client /\
   stream (server.tn_client t) = []).
Proof.
  unfold server.tunnel. intros H.
  destruct (tunnel_run_go_direction _ _ _ H eq_refl) as (d & lost & S & W & Hc).
  simpl in S, W. split.
  - exists d, (lost ++ stream (server.tn_client t)). auto.
  - intros G E. destruct (Hc G E) as [-> Z]. rewrite Z, app_nil_r in S.
    rewrite S. auto.
Qed.

Lemma tunnel_relays_client_to_remote_witness :
  exists t,
    server.tunnel go_first talking_client chatty_remote = Some t /\
    written (log (server.tn_remote t)) = [x41].
Proof.
  eexists. split; [reflexivity|].
  exact (proj1 (proj2 (tunnel_relays_client_to_remote
                         go_first talking_client chatty_remote _ eq_refl)
                      eq_refl eq_refl)).
Defined.

(** ** The views of the data model *)

Lemma to_N_byte_of_N n : Byte.to_N (byte_of_N n) = (n mod 256)%N.
Proof.
  unfold byte_of_N.
  pose proof (Byte.to_of_N_option_map (n mod 256)) as H.
  assert (L : (n mod 256 <=? 255)%N = true).
  { apply N.leb_le. pose proof (N.mod_upper_bound n 256). lia. }
  rewrite L in H.
  destruct (Byte.of_N (n mod 256)) as [b|]; simpl in H; [|discriminate H].
  now injection H.
Qed.

Lemma to_N_byte_of_Z z : Z.of_N (Byte.to_N (byte_of_Z z)) = (z mod 256)%Z.
Proof.
  unfold byte_of_Z. rewrite to_N_byte_of_N.
  pose proof (Z.mod_pos_bound z 256 eq_refl) as B.
  rewrite N.mod_small by lia. lia.
Qed.

Lemma Uint16_PutUint16 v :
  BigEndian_Uint16 (BigEndian_PutUint16 v) = Ok (v mod 65536)%Z.
Proof.
  unfold BigEndian_Uint16, BigEndian_PutUint16.
  rewrite !to_N_byte_of_Z, Z.shiftr_div_pow2 by lia.
  f_equal. change (2 ^ 8)%Z with 256%Z. change 65536%Z with (256 * 256)%Z.
  rewrite Z.rem_mul_r by lia. lia.
Qed.

(** X18: Round trip of the two views of the data model: the address and port
    bytes a reply is encoded to, carried in a request, are decoded to the
    reply's bound address text and to its bound port reduced to 16 bits
    (so to the port itself when it is a port number). *)
Theorem reply_bytes_decode_to_the_bound_address res ver cmd atyp :
  res_addr res = [] -> res_port res = [] ->
  let req := mkReq ver cmd atyp (AddrBytes res) (PortBytes res) "" 0%Z in
  AddrStr req = BindAddr res /\
  length (PortBytes res) = 2 /\
  PortNum req = Ok (BindPort res mod 65536)%Z /\
  FullAddr req = Ok (BindAddr res +++ ":" +++ itoa (BindPort res mod 65536)) /\
  ((0 <= BindPort res < 65536)%Z -> PortNum req = Ok (BindPort res)).
Proof.
  intros Ha Hp req.
  assert (A : AddrStr req = BindAddr res).
  { unfold AddrStr, req, AddrBytes. rewrite Ha. simpl.
    apply string_of_list_byte_of_string. }
  assert (P : PortNum req = Ok (BindPort res mod 65536)%Z).
  { unfold PortNum, req, PortBytes. rewrite Hp.
    cbn [req_port DstPort length]. change (0 <? 0)%Z with false.
    change (0 <? 0) with false. cbv iota.
    rewrite Uint16_PutUint16. unfold uint16. now rewrite Z.mod_mod by lia. }
  split; [exact A|]. split; [unfold PortBytes; now rewrite Hp|].
  split; [exact P|]. split.
  - unfold FullAddr. now rewrite P, A.
  - intros R. rewrite P. now rewrite Z.mod_small.
Qed.

Lemma reply_bytes_decode_to_the_bound_address_witness :
  FullAddr (mkReq x05 x01 x03 (AddrBytes text_reply) (PortBytes text_reply) "" 0%Z)
  = Ok "a:80".
Proof.
  exact (proj1 (proj2 (proj2 (proj2
    (reply_bytes_decode_to_the_bound_address text_reply x05 x01 x03
       eq_refl eq_refl))))).
Defined.

(** X19: [PortNum], and with it [FullAddr], panics exactly on a request that has
    no positive port cached and fewer than two port bytes. *)
Theorem PortNum_panics_only_on_short_port (s : Socks5_Req) :
  ((exists msg, PortNum s = Panic msg)
   <-> (req_port s <= 0)%Z /\ length (DstPort s) < 2) /\
  ((exists msg, FullAddr s = Panic msg) <-> (exists msg, PortNum s = Panic msg)) /\
  (forall e, PortNum s <> Err e) /\ PortNum s <> Running.
Proof.
  unfold FullAddr, PortNum.
  destruct (0 <? req_port s)%Z eqn:C.
  - apply Z.ltb_lt in C. split; [split|split; [split|split]].
    + intros [msg H]. discriminate H.
    + intros [H _]. lia.
    + intros [msg H]. discriminate H.
    + intros [msg H]. discriminate H.
    + intros e H. discriminate H.
    + intros H. discriminate H.
  - apply Z.ltb_ge in C.
    destruct (DstPort s) as [|b0 [|b1 tl]]; cbn [BigEndian_Uint16 length];
      (split; [split|split; [split|split]]);
      try (intros [msg H]; discriminate H);
      try (intros [_ H]; lia);
      try (intros e H; discriminate H);
      try (intros H; discriminate H);
      try (intros _; split; [exact C|lia]);
      try (intros _; eexists; reflexivity).
Qed.

(** ** Rejections of the handshake *)

(** X4: A request whose header is in order but whose address type is none of
    01, 03, 04 is refused with "invalid atyp provided" in both packages,
    and nothing after the four header bytes is read. *)
Theorem unknown_address_type_is_rejected c cmd atyp c1 :
  do_Read 4 c = (([SOCKS5H_VERSION; cmd; RSV; atyp], 4, None), c1) ->
  cmd_in_range cmd ->
  atyp <> IP_V4_addr -> atyp <> DOMAINNAME_addr -> atyp <> IP_V6_addr ->
  server.readSockRequest c = (Err (errors_New "invalid atyp provided"), c1) /\
  handlers.readSockRequest c = (Err (errors_New "invalid atyp provided"), c1) /\
  stream c = [SOCKS5H_VERSION; cmd; RSV; atyp] ++ stream c1.
Proof.
  intros Rd Hcmd H4 H3 H6.
  assert (F : readSockRequest_fields c
              = (Err (errors_New "invalid atyp provided"), c1)).
  { unfold readSockRequest_fields. unfold bind at 1. unfold conn_Read at 1.
    rewrite Rd. cbn [negb Nat.eqb nth].
    change (Byte.eqb SOCKS5H_VERSION SOCKS5H_VERSION) with true.
    change (Byte.eqb RSV RSV) with true. cbn [negb orb].
    apply cmd_check in Hcmd. rewrite Hcmd. unfold bind.
    destruct (Byte.eqb atyp IP_V4_addr) eqn:E4;
      [apply Byte.byte_dec_bl in E4; contradiction|].
    destruct (Byte.eqb atyp DOMAINNAME_addr) eqn:E3;
      [apply Byte.byte_dec_bl in E3; contradiction|].
    destruct (Byte.eqb atyp IP_V6_addr) eqn:E6;
      [apply Byte.byte_dec_bl in E6; contradiction|].
    reflexivity. }
  split; [unfold server.readSockRequest, bind; now rewrite F|].
  split; [unfold handlers.readSockRequest, bind; now rewrite F|].
  now destruct (do_Read_full_stream _ _ _ _ Rd) as (_ & S & _).
Qed.

Lemma unknown_address_type_is_rejected_witness :
  fst (server.readSockRequest unknown_atyp_bytes)
  = Err (errors_New "invalid atyp provided") /\
  stream (snd (server.readSockRequest unknown_atyp_bytes))
  = [x7f; x00; x00; x01; x00; x50].
Proof.
  destruct (unknown_address_type_is_rejected
              unknown_atyp_bytes x01 x02
              (mkConn [[x7f; x00; x00; x01; x00; x50]] io_EOF None
                      [EvRead 4 [x05; x01; x00; x02]])
              eq_refl (conj (N.le_refl 1) (N.lt_le_incl 1 3 eq_refl))
              ltac:(discriminate) ltac:(discriminate) ltac:(discriminate))
    as (S & _ & _).
  rewrite S. split; reflexivity.
Defined.

(** X5: A connection whose first byte is not 05 is answered with nothing: both
    packages read that one byte, write nothing, close the connection and
    return "non socks5h connection received". *)
Theorem other_protocols_are_turned_away c v c1 :
  do_Read 1 c = (([v], 1, None), c1) ->
  v <> SOCKS5H_VERSION ->
  (forall dial sched,
      server.handle_socks5_connection dial sched c
      = (Err (errors_New "non socks5h connection received"), conn_Close c1)) /\
  handlers.Handle_SOCKS5H_Connection c
  = (Err (errors_New "non socks5h connection received"), conn_Close c1) /\
  log (conn_Close c1) = log c ++ [EvRead 1 [v]; EvClose] /\
  stream c = v :: stream c1.
Proof.
  intros Rd Hv.
  assert (E : Byte.eqb v SOCKS5H_VERSION = false).
  { destruct (Byte.eqb v SOCKS5H_VERSION) eqn:E; [|reflexivity].
    apply Byte.byte_dec_bl in E. contradiction. }
  destruct (do_Read_full_stream _ _ _ _ Rd) as (_ & S & L & _).
  split; [|split; [|split]].
  - intros dial sched. unfold server.handle_socks5_connection. unfold_go.
    rewrite Rd. cbn [length hd Nat.ltb Nat.leb andb]. now rewrite E.
  - unfold handlers.Handle_SOCKS5H_Connection. unfold_go.
    rewrite Rd. cbn [length hd Nat.ltb Nat.leb andb]. now rewrite E.
  - unfold conn_Close, add_event. cbn [log]. rewrite L, <- app_assoc. reflexivity.
  - exact S.
Qed.

Lemma other_protocols_are_turned_away_witness :
  handlers.Handle_SOCKS5H_Connection socks4_bytes
  = (Err (errors_New "non socks5h connection received"),
     mkConn [[x01; x00; x50]] io_EOF None [EvRead 1 [x04]; EvClose]).
Proof.
  exact (proj1 (proj2 (other_protocols_are_turned_away
                         socks4_bytes x04
                         (mkConn [[x01; x00; x50]] io_EOF None [EvRead 1 [x04]])
                         eq_refl ltac:(discriminate)))).
Defined.

(** X8: When the method selection cannot be written in full, both handlers
    return the write error and leave the request unread. *)
Theorem unwritten_selection_ends_the_handshake c methods c1 k :
  readGreeting c = (Ok methods, c1) ->
  wr_room c1 = Some k -> k < 2 ->
  exists c2,
    (forall dial sched,
        server.handleSOCKS5 dial sched c
        = (Err (net_OpError "write: broken pipe"), c2)) /\
    handlers.handleSOCKS5 c = (Err (net_OpError "write: broken pipe"), c2) /\
    log c2 = log c1 ++ [EvWrite (methodSelectionReply methods) k] /\
    pending c2 = pending c1.
Proof.
  intros G Hw Hk.
  assert (S : replyMethodSelection methods c1
              = (Err (net_OpError "write: broken pipe"),
                 mkConn (pending c1) (rd_end c1) (Some 0)
                        (log c1 ++ [EvWrite (methodSelectionReply methods) k]))).
  { unfold replyMethodSelection. unfold_go. unfold do_Write. rewrite Hw.
    change (length (methodSelectionReply methods)) with 2.
    destruct (2 <=? k) eqn:E; [apply Nat.leb_le in E; lia|reflexivity]. }
  eexists. split; [|split; [|split]].
  - intros dial sched. unfold server.handleSOCKS5.
    unfold bind at 1. rewrite G. unfold bind at 1. rewrite S. reflexivity.
  - unfold handlers.handleSOCKS5.
    unfold bind at 1. rewrite G. unfold bind at 1. rewrite S. reflexivity.
  - reflexivity.
  - reflexivity.
Qed.

Lemma unwritten_selection_ends_the_handshake_witness :
  exists c2,
    handlers.handleSOCKS5 one_byte_left
    = (Err (net_OpError "write: broken pipe"), c2) /\
    written (log c2) = [x05].
Proof.
  destruct (unwritten_selection_ends_the_handshake
              one_byte_left [x00]
              (mkConn [] io_EOF (Some 1) [EvRead 1 [x01]; EvRead 1 [x00]]) 1
              eq_refl eq_refl (le_n 2))
    as (c2 & _ & H & L & _).
  exists c2. split; [exact H|]. rewrite L. reflexivity.
Defined.

(** X9: A parsed request whose command is not CONNECT (BIND, UDP ASSOCIATE) is
    never dialed and never answered: the handler returns "could not create
    remote connection" and the client has received the method selection
    only. *)
Theorem other_commands_get_no_reply c0 methods c1 c2 req c3 :
  readGreeting c0 = (Ok methods, c1) ->
  replyMethodSelection methods c1 = (Ok tt, c2) ->
  server.readSockRequest c2 = (Ok req, c3) ->
  Cmd req <> CONNECT_cmd ->
  (forall dial, server.prepareProxy dial req = Ok (None, Socks5_Res_zero, None)) /\
  (forall dial sched,
      server.handleSOCKS5 dial sched c0
      = (Err (errors_New "could not create remote connection"), c3)) /\
  written (log c3) = written (log c0) ++ methodSelectionReply methods.
Proof.
  intros G S R Hc.
  assert (E : Byte.eqb (Cmd req) CONNECT_cmd = false).
  { destruct (Byte.eqb (Cmd req) CONNECT_cmd) eqn:E; [|reflexivity].
    apply Byte.byte_dec_bl in E. contradiction. }
  assert (P : forall dial, server.prepareProxy dial req
                           = Ok (None, Socks5_Res_zero, None)).
  { intros dial. unfold server.prepareProxy. now rewrite E. }
  split; [exact P|]. split.
  - intros dial sched. unfold server.handleSOCKS5.
    unfold bind at 1. rewrite G. unfold bind at 1. rewrite S.
    unfold bind at 1. rewrite R, P. reflexivity.
  - destruct (replyMethodSelection_ok _ _ _ S) as [_ L].
    rewrite (parsed_request_writes_nothing _ _ _ R), L, written_app, (readGreeting_written _ _ _ G). reflexivity.
Qed.

Lemma other_commands_get_no_reply_witness :
  fst (server.handleSOCKS5 dial_any [server.T_main] bind_request_stream)
  = Err (errors_New "could not create remote connection") /\
  written (log (snd (server.handleSOCKS5 dial_any [server.T_main] bind_request_stream)))
  = [x05; x00].
Proof.
  destruct (other_commands_get_no_reply
              bind_request_stream [x00]
              (mkConn [[x05; x02; x00; x03; x01; x61; x00; x50]] io_EOF None
                      [EvRead 1 [x01]; EvRead 1 [x00]])
              (mkConn [[x05; x02; x00; x03; x01; x61; x00; x50]] io_EOF None
                      [EvRead 1 [x01]; EvRead 1 [x00]; EvWrite [x05; x00] 2])
              (mkReq x05 x02 x03 [x61] [x00; x50] "" 0%Z)
              (mkConn [] io_EOF None
                      [EvRead 1 [x01]; EvRead 1 [x00]; EvWrite [x05; x00] 2;
                       EvRead 4 [x05; x02; x00; x03]; EvRead 1 [x01];
                       EvRead 1 [x61]; EvRead 2 [x00; x50]])
              eq_refl eq_refl eq_refl ltac:(discriminate))
    as (_ & H & W).
  rewrite (H dial_any [server.T_main]). split; [reflexivity|exact W].
Defined.

(** ** The greeting read in full *)

(** X6: When the one Read of the methods delivers all N of them, the greeting is
    exactly the N bytes that followed the count on the wire, and the
    selection then written is 05 00 if 00 is among them and 05 FF if not. *)
Theorem complete_greeting_is_answered_by_membership c n ms c1 c2 c3 :
  do_Read 1 c = (([n], 1, None), c1) ->
  n <> x00 ->
  do_Read (Byte.to_nat n) c1 = ((ms, Byte.to_nat n, None), c2) ->
  replyMethodSelection ms c2 = (Ok tt, c3) ->
  readGreeting c = (Ok ms, c2) /\
  stream c = n :: ms ++ stream c2 /\
  length ms = Byte.to_nat n /\
  ((In NO_AUTHENTICATION_REQUIRED_method ms /\
    written (log c3) = written (log c) ++ [x05; x00]) \/
   (~ In NO_AUTHENTICATION_REQUIRED_method ms /\
    written (log c3) = written (log c) ++ [x05; xff])).
Proof.
  intros R1 Hn R2 S.
  pose proof (readGreeting_ignores_the_count _ _ _ _ _ _ R1 Hn R2) as G.
  destruct (do_Read_full_stream _ _ _ _ R1) as (_ & S1 & _).
  destruct (do_Read_full_stream _ _ _ _ R2) as (L2 & S2 & _).
  split; [exact G|]. split; [rewrite S1, S2; reflexivity|]. split; [exact L2|].
  destruct (replyMethodSelection_ok _ _ _ S) as [_ L].
  assert (W : written (log c3) = written (log c) ++ methodSelectionReply ms).
  { rewrite L, written_app, (readGreeting_written _ _ _ G). reflexivity. }
  destruct (methodSelectionReply_cases ms) as [[I E]|[I E]]; rewrite E in W; auto.
Qed.

Lemma complete_greeting_is_answered_by_membership_witness :
  readGreeting two_method_greeting
  = (Ok [x01; x00],
     mkConn [] io_EOF None [EvRead 1 [x02]; EvRead 2 [x01; x00]]) /\
  In NO_AUTHENTICATION_REQUIRED_method [x01; x00].
Proof.
  destruct (complete_greeting_is_answered_by_membership
              two_method_greeting x02 [x01; x00]
              (mkConn [[x01; x00]] io_EOF None [EvRead 1 [x02]])
              (mkConn [] io_EOF None [EvRead 1 [x02]; EvRead 2 [x01; x00]])
              (mkConn [] io_EOF None
                      [EvRead 1 [x02]; EvRead 2 [x01; x00]; EvWrite [x05; x00] 2])
              eq_refl ltac:(discriminate) eq_refl eq_refl)
    as (G & _ & _ & _).
  split; [exact G|]. right. left. reflexivity.
Defined.

(** X7: A greeting with a method count of 0 is valid: no Read is made for the
    methods, the method list is empty, and the selection written is 05 FF. *)
Theorem empty_method_list_selects_no_acceptable_method c c1 c2 :
  do_Read 1 c = (([x00], 1, None), c1) ->
  replyMethodSelection [] c1 = (Ok tt, c2) ->
  readGreeting c = (Ok [], c1) /\
  log c2 = log c ++ [EvRead 1 [x00];
                     EvWrite [SOCKS5H_VERSION; NO_ACCEPTABLE_METHODS_method] 2].
Proof.
  intros R1 S.
  assert (G : readGreeting c = (Ok [], c1)).
  { unfold readGreeting. unfold_go. rewrite R1. reflexivity. }
  split; [exact G|].
  destruct (replyMethodSelection_ok _ _ _ S) as [_ L].
  destruct (do_Read_full_stream _ _ _ _ R1) as (_ & _ & L1 & _).
  rewrite L, L1, <- app_assoc. reflexivity.
Qed.

Lemma empty_method_list_selects_no_acceptable_method_witness :
  readGreeting no_method_greeting
  = (Ok [], mkConn [] io_EOF None [EvRead 1 [x00]]).
Proof.
  exact (proj1 (empty_method_list_selects_no_acceptable_method
                  no_method_greeting
                  (mkConn [] io_EOF None [EvRead 1 [x00]])
                  (mkConn [] io_EOF None [EvRead 1 [x00]; EvWrite [x05; xff] 2])
                  eq_refl eq_refl)).
Defined.

(** ** The connection is closed by its handler, and only there *)























(** ** What the handlers write *)

Lemma reads_only_ret {A} (a : A) : reads_only (ret a).
Proof. intros c r c' H. now injection H as _ <-. Qed.

Lemma reads_only_fail {A} e : reads_only (@fail A e).
Proof. intros c r c' H. now injection H as _ <-. Qed.

Lemma reads_only_bind {A B} (m : M A) (k : A -> M B) :
  reads_only m -> (forall a, reads_only (k a)) -> reads_only (bind m k).
Proof.
  intros Hm Hk c r c'. unfold bind.
  destruct (m c) as [[a|e|msg|] c1] eqn:E; intros H.
  - rewrite (Hk _ _ _ _ H). eapply Hm, E.
  - injection H as _ <-. eapply Hm, E.
  - injection H as _ <-. eapply Hm, E.
  - injection H as _ <-. eapply Hm, E.
Qed.

Lemma reads_only_conn_Read n : reads_only (conn_Read n).
Proof.
  intros c r c'. unfold conn_Read.
  destruct (do_Read n c) as [x c1] eqn:E. intros H. injection H as _ <-.
  eapply do_Read_written, E.
Qed.

Ltac reads_only_tac :=
  repeat first
    [ apply reads_only_ret | apply reads_only_fail | apply reads_only_conn_Read
    | apply reads_only_bind; [|intros]
    | match goal with
      | |- reads_only (match ?x with _ => _ end) => destruct x
      | |- reads_only (if ?b then _ else _) => destruct b
      end ].

Lemma reads_only_readSockRequest_fields : reads_only readSockRequest_fields.
Proof.
  unfold readSockRequest_fields, readIPV4Addr, readIPV6Addr, readDomainNameAddr.
  reads_only_tac.
Qed.

Lemma reads_only_server_readSockRequest : reads_only server.readSockRequest.
Proof.
  unfold server.readSockRequest.
  apply reads_only_bind; [apply reads_only_readSockRequest_fields|].
  intros [[[[ver cmd] atyp] addr] port]. apply reads_only_ret.
Qed.

Lemma reads_only_handlers_readSockRequest : reads_only handlers.readSockRequest.
Proof.
  unfold handlers.readSockRequest.
  apply reads_only_bind; [apply reads_only_readSockRequest_fields|].
  intros [[[[ver cmd] atyp] addr] port]. apply reads_only_ret.
Qed.

Lemma replyMethodSelection_written methods c r c' :
  replyMethodSelection methods c = (r, c') ->
  exists n, written (log c') = written (log c) ++ firstn n (methodSelectionReply methods).
Proof.
  unfold replyMethodSelection. unfold_go.
  destruct (do_Write (methodSelectionReply methods) c) as [[n err] c1] eqn:W.
  destruct (do_Write_spec _ _ _ _ _ W) as (_ & L & _).
  intros H. exists n.
  assert (c' = c1) by (destruct err; now injection H). subst c'.
  rewrite L, written_app. simpl. now rewrite app_nil_r.
Qed.

(** A handshake that stops before or at the method selection, or goes on
    with computations that only read, has written a front of the selection
    and nothing else. *)
Lemma selection_then_reads {A} (rest : M A) c r c' :
  reads_only rest ->
  bind readGreeting
       (fun methods => bind (replyMethodSelection methods) (fun _ => rest)) c
  = (r, c') ->
  exists methods n,
    written (log c') = written (log c) ++ firstn n (methodSelectionReply methods).
Proof.
  intros Hrest. unfold bind at 1.
  destruct (readGreeting c) as [[methods|e|msg|] c1] eqn:G;
    pose proof (readGreeting_written _ _ _ G) as W1.
  2-4: intros H; injection H as _ <-; exists [], 0; simpl;
       now rewrite app_nil_r.
  unfold bind.
  destruct (replyMethodSelection methods c1) as [[[]|e|msg|] c2] eqn:S;
    destruct (replyMethodSelection_written _ _ _ _ S) as [n W2]; intros H.
  - exists methods, n. rewrite (Hrest _ _ _ H), W2, W1. reflexivity.
  - injection H as _ <-. exists methods, n. now rewrite W2, W1.
  - injection H as _ <-. exists methods, n. now rewrite W2, W1.
  - injection H as _ <-. exists methods, n. now rewrite W2, W1.
Qed.

Lemma written_conn_Close c : written (log (conn_Close c)) = written (log c).
Proof.
  unfold conn_Close, add_event. cbn [log]. rewrite written_app. simpl.
  apply app_nil_r.
Qed.

(** X17: Package handlers never writes anything but the method selection: at
    the end of any connection the client has received a front (none, one or
    both bytes) of one selection message. *)
Theorem handlers_write_the_selection_only c :
  exists methods n,
    written (log (snd (handlers.Handle_SOCKS5H_Connection c)))
    = written (log c) ++ firstn n (methodSelectionReply methods).
Proof.
  unfold handlers.Handle_SOCKS5H_Connection. unfold bind at 1. unfold conn_Read at 1.
  destruct (do_Read 1 c) as [[[v k] err] c1] eqn:Rd.
  pose proof (do_Read_written _ _ _ _ Rd) as W0.
  assert (Stop : forall (r : outcome unit),
    exists methods n,
      written (log (snd (let '(r0, conn') := (r, c1) in (r0, conn_Close conn'))))
      = written (log c) ++ firstn n (methodSelectionReply methods)).
  { intros r. exists [], 0. cbn [snd]. rewrite written_conn_Close, W0. simpl.
    now rewrite app_nil_r. }
  destruct err; [apply Stop|].
  destruct (_ && _); [|apply Stop].
  destruct (handlers.handleSOCKS5 c1) as [r c2] eqn:H. cbn [snd].
  rewrite written_conn_Close, <- W0.
  unfold handlers.handleSOCKS5 in H.
  eapply selection_then_reads; [|exact H].
  apply reads_only_bind; [apply reads_only_handlers_readSockRequest|].
  intros; apply reads_only_ret.
Qed.

Lemma connectDst_success_dialed dial req remote res err :
  server.prepareProxy dial req = Ok (Some remote, res, err) ->
  Cmd req = CONNECT_cmd /\ AType req = DOMAINNAME_addr /\
  err = None /\ Reply res = SUCCEEDED_connReply /\
  exists address, FullAddr req = Ok address /\ dial TCP_V4 address = inl remote.
Proof.
  unfold server.prepareProxy, server.connectDst, server.connectDst_switch.
  destruct (Byte.eqb (Cmd req) CONNECT_cmd) eqn:C; [|discriminate].
  destruct (Byte.eqb (AType req) DOMAINNAME_addr) eqn:A; [|discriminate].
  apply Byte.byte_dec_bl in C, A.
  destruct (FullAddr req) as [address| | |]; try discriminate.
  destruct (dial TCP_V4 address) as [r|e] eqn:D; [|discriminate].
  destruct (r_LocalAddr r); [|discriminate].
  intros H. injection H as <- <- <-. repeat split; auto. eauto.
Qed.

Lemma returns_ret {A} (a : A) : returns (ret a).
Proof. intros c r c' H. injection H as <- _. discriminate. Qed.

Lemma returns_fail {A} e : returns (@fail A e).
Proof. intros c r c' H. injection H as <- _. discriminate. Qed.

Lemma returns_panic {A} msg : returns (@panic A msg).
Proof. intros c r c' H. injection H as <- _. discriminate. Qed.

Lemma returns_bind {A B} (m : M A) (k : A -> M B) :
  returns m -> (forall a, returns (k a)) -> returns (bind m k).
Proof.
  intros Hm Hk c r c'. unfold bind.
  destruct (m c) as [[a|e|msg|] c1] eqn:E; intros H.
  - eapply Hk, H.
  - injection H as <- _. discriminate.
  - injection H as <- _. discriminate.
  - exfalso. exact (Hm _ _ _ E eq_refl).
Qed.

Lemma returns_conn_Read n : returns (conn_Read n).
Proof.
  intros c r c'. unfold conn_Read. destruct (do_Read n c) as [x c1].
  intros H. injection H as <- _. discriminate.
Qed.

Lemma returns_conn_Write data : returns (conn_Write data).
Proof.
  intros c r c'. unfold conn_Write. destruct (do_Write data c) as [x c1].
  intros H. injection H as <- _. discriminate.
Qed.

Ltac returns_tac :=
  repeat first
    [ apply returns_ret | apply returns_fail | apply returns_panic
    | apply returns_conn_Read | apply returns_conn_Write
    | apply returns_bind; [|intros]
    | match goal with
      | |- returns (match ?x with _ => _ end) => destruct x
      | |- returns (if ?b then _ else _) => destruct b
      end ].

Lemma returns_readSockRequest_fields : returns readSockRequest_fields.
Proof.
  unfold readSockRequest_fields, readIPV4Addr, readIPV6Addr, readDomainNameAddr.
  returns_tac.
Qed.

Lemma returns_readGreeting : returns readGreeting.
Proof. unfold readGreeting. returns_tac. Qed.

Lemma returns_replyMethodSelection methods : returns (replyMethodSelection methods).
Proof. unfold replyMethodSelection. returns_tac. Qed.

Lemma returns_handlers_handleSOCKS5 : returns handlers.handleSOCKS5.
Proof.
  unfold handlers.handleSOCKS5, handlers.readSockRequest.
  apply returns_bind; [apply returns_readGreeting|intros methods].
  apply returns_bind; [apply returns_replyMethodSelection|intros _].
  apply returns_bind; [|intros; apply returns_ret].
  apply returns_bind; [apply returns_readSockRequest_fields|].
  intros [[[[ver cmd] atyp] addr] port]. apply returns_ret.
Qed.





(** X11: On a network where no dial succeeds the server never writes a
    connection reply: whatever the client sends, all it receives is a front
    of the method selection. *)
Theorem no_reply_without_a_successful_dial dial sched c :
  (forall network address remote, dial network address <> inl remote) ->
  exists methods n,
    written (log (snd (server.handle_socks5_connection dial sched c)))
    = written (log c) ++ firstn n (methodSelectionReply methods).
Proof.
  intros Hdial.
  unfold server.handle_socks5_connection. unfold bind at 1. unfold conn_Read at 1.
  destruct (do_Read 1 c) as [[[v k] err] c1] eqn:Rd.
  pose proof (do_Read_written _ _ _ _ Rd) as W0.
  assert (Stop : forall (r : outcome unit),
    exists methods n,
      written (log (snd (match (r, c1) with
                         | (Running, conn') => (Running, conn')
                         | (r0, conn') => (r0, conn_Close conn')
                         end)))
      = written (log c) ++ firstn n (methodSelectionReply methods)).
  { intros r. exists [], 0. destruct r; cbn [snd];
      rewrite ?written_conn_Close, W0; simpl; now rewrite app_nil_r. }
  destruct err as [e|]; [exact (Stop (Err e))|].
  destruct (_ && _);
    [|exact (Stop (Err (errors_New "non socks5h connection received")))].
  destruct (server.handleSOCKS5 dial sched c1) as [r c2] eqn:H.
  assert (G : exists methods n,
    written (log c2) = written (log c1) ++ firstn n (methodSelectionReply methods)).
  { unfold server.handleSOCKS5 in H.
    eapply selection_then_reads; [|exact H].
    apply reads_only_bind; [apply reads_only_server_readSockRequest|].
    intros req.
    destruct (server.prepareProxy dial req) as [[[remote res] e]|e|msg|] eqn:P.
    - destruct e; [apply reads_only_fail|].
      destruct remote as [rmt|]; [|apply reads_only_fail].
      destruct (connectDst_success_dialed _ _ _ _ _ P) as (_ & _ & _ & _ & a & _ & D).
      exfalso. exact (Hdial _ _ _ D).
    - apply reads_only_fail.
    - intros x y z E. now injection E as _ <-.
    - intros x y z E. now injection E as _ <-. }
  destruct G as (methods & n & G). exists methods, n.
  destruct r; cbn [snd]; rewrite ?written_conn_Close, G, W0; reflexivity.
Qed.

Lemma no_reply_without_a_successful_dial_witness :
  exists methods n,
    written (log (snd (server.handle_socks5_connection
                         dial_refused [server.T_main] connect_domain)))
    = firstn n (methodSelectionReply methods).
Proof.
  exact (no_reply_without_a_successful_dial dial_refused [server.T_main] connect_domain
           (fun network address remote H =>
              eq_ind (dial_refused network address)
                     (fun x => match x with inl _ => False | inr _ => True end)
                     I _ H)).
Defined.

Lemma replyConnInfo_writes_frame res c :
  fst (server.replyConnInfo res c) = Ok tt
  <-> written (log (snd (server.replyConnInfo res c)))
      = written (log c) ++ server.connReply res.
Proof.
  unfold server.replyConnInfo. cbv zeta. unfold_go.
  destruct (do_Write (server.connReply res) c) as [[n err] c1] eqn:W.
  destruct (do_Write_spec _ _ _ _ _ W) as (_ & L & Hle & F).
  assert (Wr : written (log c1) = written (log c) ++ firstn n (server.connReply res)).
  { rewrite L, written_app. simpl. now rewrite app_nil_r. }
  assert (Full : written (log c1) = written (log c) ++ server.connReply res
                 -> n = length (server.connReply res)).
  { rewrite Wr. intros E. apply app_inv_head in E.
    apply (f_equal (@length byte)) in E. rewrite length_firstn in E. lia. }
  destruct err as [e|].
  - cbn [fst snd]. split; [discriminate|].
    intros E. apply Full in E. apply F in E. discriminate E.
  - assert (n = length (server.connReply res)) by now apply F. subst n.
    rewrite Nat.eqb_refl. cbn [negb fst snd]. rewrite Wr, firstn_all. tauto.
Qed.

(** X13: [replyConnInfo] reports success exactly when the whole reply frame has
    reached the client. *)
Theorem replyConnInfo_succeeds_iff_frame_written res c :
  fst (server.replyConnInfo res c) = Ok tt
  <-> written (log (snd (server.replyConnInfo res c)))
      = written (log c) ++ server.connReply res.
Proof. apply replyConnInfo_writes_frame. Qed.

(** X10: The only connection reply the server ever sends carries the reply code
    SUCCEEDED: once a request is parsed, either nothing more happens on the
    client connection, or the next thing is the write of the reply frame of
    a dial that succeeded. *)
Theorem only_succeeded_replies_are_sent dial sched c0 methods c1 c2 req c3 :
  readGreeting c0 = (Ok methods, c1) ->
  replyMethodSelection methods c1 = (Ok tt, c2) ->
  server.readSockRequest c2 = (Ok req, c3) ->
  log (snd (server.handleSOCKS5 dial sched c0)) = log c3 \/
  exists remote res address n l,
    FullAddr req = Ok address /\
    dial TCP_V4 address = inl remote /\
    Reply res = SUCCEEDED_connReply /\
    log (snd (server.handleSOCKS5 dial sched c0))
    = log c3 ++ EvWrite (server.connReply res) n :: l.
Proof.
  intros G S R.
  destruct (server.handleSOCKS5 dial sched c0) as [r c'] eqn:H. cbn [snd].
  revert H. unfold server.handleSOCKS5.
  unfold bind at 1. rewrite G. unfold bind at 1. rewrite S.
  unfold bind at 1. rewrite R.
  destruct (server.prepareProxy dial req) as [[[remote res] err]|e|msg|] eqn:P;
    try (intros H; injection H as _ <-; left; reflexivity).
  destruct err; [intros H; injection H as _ <-; left; reflexivity|].
  destruct remote as [rmt|]; [|intros H; injection H as _ <-; left; reflexivity].
  destruct (connectDst_success_dialed _ _ _ _ _ P) as (_ & _ & _ & Rp & a & Fa & D).
  intros H. right. exists rmt, res, a.
  revert H. unfold bind, server.replyConnInfo. cbv zeta. unfold_go.
  destruct (do_Write (server.connReply res) c3) as [[n err] c4] eqn:W.
  destruct (do_Write_spec _ _ _ _ _ W) as (_ & L & _).
  destruct err as [e|];
    [intros H; injection H as _ <-; exists n, []; rewrite L; now auto|].
  destruct (negb _);
    [intros H; injection H as _ <-; exists n, []; rewrite L; now auto|].
  intros T.
  destruct (grows_relay _ _ _ _ _ T) as [l Hl].
  exists n, l. rewrite Hl, L, <- app_assoc. auto.
Qed.

Lemma only_succeeded_replies_are_sent_witness :
  log (snd (server.handleSOCKS5 dial_refused [server.T_main] bind_request_stream))
  = [EvRead 1 [x01]; EvRead 1 [x00]; EvWrite [x05; x00] 2;
     EvRead 4 [x05; x02; x00; x03]; EvRead 1 [x01];
     EvRead 1 [x61]; EvRead 2 [x00; x50]].
Proof.
  destruct (only_succeeded_replies_are_sent
              dial_refused [server.T_main] bind_request_stream [x00]
              (mkConn [[x05; x02; x00; x03; x01; x61; x00; x50]] io_EOF None
                      [EvRead 1 [x01]; EvRead 1 [x00]])
              (mkConn [[x05; x02; x00; x03; x01; x61; x00; x50]] io_EOF None
                      [EvRead 1 [x01]; EvRead 1 [x00]; EvWrite [x05; x00] 2])
              (mkReq x05 x02 x03 [x61] [x00; x50] "" 0%Z)
              (mkConn [] io_EOF None
                      [EvRead 1 [x01]; EvRead 1 [x00]; EvWrite [x05; x00] 2;
                       EvRead 4 [x05; x02; x00; x03]; EvRead 1 [x01];
                       EvRead 1 [x61]; EvRead 2 [x00; x50]])
              eq_refl eq_refl eq_refl)
    as [H|(remote & res & a & n & l & _ & D & _)].
  - exact H.
  - discriminate D.
Defined.

(** X12: End to end: when a CONNECT is dialed with success and the handler
    returns without error, the client has received, in this order and with
    nothing else, the method selection, the connection reply, and every
    byte the remote sent. *)
Theorem successful_connect_end_to_end dial sched c0 methods c1 c2 req c3 remote res c' :
  readGreeting c0 = (Ok methods, c1) ->
  replyMethodSelection methods c1 = (Ok tt, c2) ->
  server.readSockRequest c2 = (Ok req, c3) ->
  server.prepareProxy dial req = Ok (Some remote, res, None) ->
  server.handleSOCKS5 dial sched c0 = (Ok tt, c') ->
  written (log c')
  = written (log c0) ++ methodSelectionReply methods ++ server.connReply res
    ++ stream (r_conn remote).
Proof.
  intros G S R P. unfold server.handleSOCKS5.
  unfold bind at 1. rewrite G. unfold bind at 1. rewrite S.
  unfold bind at 1. rewrite R, P. unfold bind.
  destruct (server.replyConnInfo res c3) as [[[]|e|msg|] c4] eqn:Q;
    try discriminate.
  pose proof (proj1 (replyConnInfo_writes_frame res c3)) as Wq.
  rewrite Q in Wq. cbn [fst snd] in Wq. specialize (Wq eq_refl).
  unfold server.relay.
  destruct (server.tunnel sched c4 (r_conn remote)) as [t|] eqn:T; [|discriminate].
  unfold server.tunnel in T.
  destruct (tunnel_run_main_direction _ _ _ T) as (d & lost & St & Wt & Hc).
  cbn [server.tn_client server.tn_remote] in St, Wt.
  destruct (server.readErr t) eqn:Er; [destruct (server.writeErr t); discriminate|].
  destruct (server.writeErr t); [discriminate|].
  intros H. injection H as <-.
  destruct (Hc eq_refl) as [-> Z]. rewrite Z, app_nil_r in St. cbn [app] in St.
  destruct (replyMethodSelection_ok _ _ _ S) as [_ L].
  rewrite Wt, Wq, (parsed_request_writes_nothing _ _ _ R), L, written_app,
    (readGreeting_written _ _ _ G), St, <- !app_assoc.
  reflexivity.
Qed.

Lemma successful_connect_end_to_end_witness :
  written (log (snd (server.handleSOCKS5 dial_chatty go_first connect_domain)))
  = [x05; x00]
    ++ ([x05; x00; x00; x01] ++ list_byte_of_string "10.0.0.7" ++ [x9c; x40])
    ++ [x48; x49].
Proof.
  refine (successful_connect_end_to_end
            dial_chatty go_first connect_domain _ _ _ _ _ _ _
            (snd (server.handleSOCKS5 dial_chatty go_first connect_domain))
            eq_refl eq_refl eq_refl eq_refl eq_refl).
Defined.
